(** * xmap: named-axis batching by repeated single-axis vectorisation

    A shallow embedding of [xmap.py]: the pytree helpers, the runtime axis
    validator and the recursive elimination of named axes, followed by the
    properties of the specification that they satisfy. *)

From Stdlib Require Import String Ascii List ZArith Bool Arith Lia.
Import ListNotations.
Open Scope string_scope.

(** ** Python objects that occur in axis specifications *)

(** NumPy / JAX element types. *)
Inductive dtype :=
| int8 | int16 | int32 | int64
| uint8 | uint16 | uint32 | uint64
| float16 | bfloat16 | float32 | float64
| bool_
| complex64 | complex128.

(** Type objects ([isinstance(x, type)] holds for each of them).
    [T_np d] is the scalar type of element type [d] ([jnp.int32], ...);
    [T_Array] is [jax.Array] (alias [jnp.ndarray]) and [T_ArrayImpl] the
    concrete class of the arrays JAX hands out. *)
Inductive pytype :=
| T_object | T_int | T_bool | T_float | T_complex | T_str
| T_NoneType | T_ellipsis | T_list | T_tuple | T_dict | T_type
| T_np (d : dtype)
| T_Array | T_ArrayImpl.

Definition dtype_eq_dec (a b : dtype) : {a = b} + {a <> b}.
Proof. decide equality. Defined.

Definition pytype_eq_dec (a b : pytype) : {a = b} + {a <> b}.
Proof. decide equality. apply dtype_eq_dec. Defined.

(** An axis specification: strings are axis names, type objects are type
    descriptors, [None], [...] and integers are the other single values;
    lists, tuples and dictionaries (insertion ordered) are the containers. *)
Unset Elimination Schemes.
Inductive pytree :=
| PStr (s : string)
| PType (t : pytype)
| PNone
| PEllipsis
| PInt (z : Z)
| PList (l : list pytree)
| PTuple (l : list pytree)
| PDict (kvs : list (string * pytree)).
Set Elimination Schemes.

Section PytreeInduction.
Variable P : pytree -> Prop.
Hypothesis HStr : forall s, P (PStr s).
Hypothesis HType : forall t, P (PType t).
Hypothesis HNone : P PNone.
Hypothesis HEllipsis : P PEllipsis.
Hypothesis HInt : forall z, P (PInt z).
Hypothesis HList : forall l, Forall P l -> P (PList l).
Hypothesis HTuple : forall l, Forall P l -> P (PTuple l).
Hypothesis HDict : forall kvs, Forall (fun kv => P (snd kv)) kvs -> P (PDict kvs).

Fixpoint pytree_nested_ind (t : pytree) : P t :=
  match t with
  | PStr s => HStr s
  | PType ty => HType ty
  | PNone => HNone
  | PEllipsis => HEllipsis
  | PInt z => HInt z
  | PList l =>
      HList l ((fix all (l : list pytree) : Forall P l :=
                  match l with
                  | [] => Forall_nil _
                  | x :: r => Forall_cons x (pytree_nested_ind x) (all r)
                  end) l)
  | PTuple l =>
      HTuple l ((fix all (l : list pytree) : Forall P l :=
                   match l with
                   | [] => Forall_nil _
                   | x :: r => Forall_cons x (pytree_nested_ind x) (all r)
                   end) l)
  | PDict kvs =>
      HDict kvs ((fix all (l : list (string * pytree))
                    : Forall (fun kv => P (snd kv)) l :=
                    match l with
                    | [] => Forall_nil _
                    | kv :: r => Forall_cons kv (pytree_nested_ind (snd kv)) (all r)
                    end) kvs)
  end.
End PytreeInduction.

(** ** PYTREE FUNCTIONS *)

(** [isinstance(elem, (list, dict, tuple))] *)
Definition is_container (t : pytree) : bool :=
  match t with
  | PList _ | PTuple _ | PDict _ => true
  | _ => false
  end.

(** [isinstance(a, str)] *)
Definition is_str (t : pytree) : bool :=
  match t with
  | PStr _ => true
  | _ => false
  end.

(** [x is None] *)
Definition is_None (t : pytree) : bool :=
  match t with
  | PNone => true
  | _ => false
  end.

(** [make_iterable]: the values of a dictionary, the elements of a list or
    tuple.  Single values have nothing to iterate in this model. *)
Definition make_iterable (t : pytree) : list pytree :=
  match t with
  | PDict kvs => map snd kvs
  | PList l | PTuple l => l
  | _ => []
  end.

(** [is_pytree_leaf].  The [jax.Array] branch of the source never fires on a
    specification, which holds no array; what is left is the list test: a
    list with no sublist, dictionary or tuple among its elements. *)
Definition is_pytree_leaf (structure : pytree) : bool :=
  match structure with
  | PList l => negb (existsb is_container l)
  | _ => false
  end.

(** [map_pytree_leaves] *)
Fixpoint map_pytree_leaves (func : list pytree -> pytree) (structure : pytree)
         (func_single_values : pytree -> pytree) : pytree :=
  if is_pytree_leaf structure then func (make_iterable structure)
  else
    match structure with
    | PDict kvs =>
        PDict (map (fun kv => (fst kv, map_pytree_leaves func (snd kv) func_single_values)) kvs)
    | PList l =>
        PList (map (fun v => map_pytree_leaves func v func_single_values) l)
    | PTuple l =>
        PTuple (map (fun v => map_pytree_leaves func v func_single_values) l)
    | _ => func_single_values structure
    end.

(** The first [value] of a leaf with [condition(value)]; [None] when the
    loop runs to its end. *)
Fixpoint first_value (condition : pytree -> bool) (leaf : list pytree) : pytree :=
  match leaf with
  | [] => PNone
  | value :: rest =>
      if condition value then value else first_value condition rest
  end.

(** [find_in_pytree].  The result is a Python object: [None] stands both
    for "no match" and for a matching element that is [None] itself. *)
Fixpoint find_in_pytree (condition : pytree -> bool) (structure : pytree) : pytree :=
  if is_pytree_leaf structure then first_value condition (make_iterable structure)
  else
    match structure with
    | PList data | PTuple data =>
        (fix loop (data : list pytree) : pytree :=
           match data with
           | [] => PNone
           | element :: rest =>
               let result := find_in_pytree condition element in
               if negb (is_None result) then result else loop rest
           end) data
    | PDict kvs =>
        (fix loop (data : list (string * pytree)) : pytree :=
           match data with
           | [] => PNone
           | kv :: rest =>
               let result := find_in_pytree condition (snd kv) in
               if negb (is_None result) then result else loop rest
           end) kvs
    | _ => PNone
    end.

(** Python [==] with a leaf element on the left.  The elements of a leaf are
    single values, for which equality is equality of kind and content; a
    container is never an element of a leaf. *)
Definition py_eq (a b : pytree) : bool :=
  match a, b with
  | PStr s, PStr s' => String.eqb s s'
  | PType t, PType t' => if pytype_eq_dec t t' then true else false
  | PNone, PNone => true
  | PEllipsis, PEllipsis => true
  | PInt z, PInt z' => Z.eqb z z'
  | _, _ => false
  end.

(** [a != b] *)
Definition py_ne (a b : pytree) : bool := negb (py_eq a b).

(** [filter_pytree] *)
Definition filter_pytree (condition : pytree -> bool) (structure : pytree) : pytree :=
  let filter_leaf := fun leaf => PList (filter condition leaf) in
  map_pytree_leaves filter_leaf structure (fun v => v).

(** [leaf.index(value)] when [value in leaf] *)
Fixpoint list_index (value : pytree) (leaf : list pytree) : option Z :=
  match leaf with
  | [] => None
  | x :: rest =>
      if py_eq x value then Some 0%Z
      else option_map Z.succ (list_index value rest)
  end.

(** [index_in_pytree] *)
Definition index_in_pytree (value : pytree) (structure : pytree) : pytree :=
  let index_leaf := fun leaf =>
    match list_index value leaf with
    | Some i => PInt i
    | None => PNone
    end in
  map_pytree_leaves index_leaf structure (fun _ => PNone).

(** ** Runtime values *)

(** What a call receives and returns.  The content of an array and of a
    float is left out: the validator reads types and shapes only. *)
Unset Elimination Schemes.
Inductive pydata :=
| DInt (z : Z)
| DFloat
| DBool (b : bool)
| DNone
| DStr (s : string)
| DNp (d : dtype)
| DArray (d : dtype) (shape : list nat)
| DList (l : list pydata)
| DTuple (l : list pydata)
| DDict (kvs : list (string * pydata)).
Set Elimination Schemes.

(** What can be raised.  An [AssertionError] carries which assertion of the
    source failed instead of its formatted message. *)
Inductive assertion :=
| ShapeMismatch
| ElementsMismatch
| TypeMismatch
| UnusedInputAxis (named_input_axis : pytree).

Inductive exception :=
| AssertionError (a : assertion)
| AttributeError
| TypeError
| ValueError
| IndexError.

Inductive result (A : Type) :=
| Ok (a : A)
| Raise (e : exception).
Arguments Ok {A} a.
Arguments Raise {A} e.

Definition bind {A B : Type} (r : result A) (k : A -> result B) : result B :=
  match r with
  | Ok a => k a
  | Raise e => Raise e
  end.

Notation "x <- r ;; k" := (bind r (fun x => k))
  (at level 61, r at next level, right associativity).

(** [assert cond, ...] *)
Definition assert (cond : bool) (a : assertion) : result unit :=
  if cond then Ok tt else Raise (AssertionError a).

(** [data.ndim]: arrays and NumPy scalars have it. *)
Definition ndim (data : pydata) : result nat :=
  match data with
  | DArray _ shape => Ok (length shape)
  | DNp _ => Ok 0
  | _ => Raise AttributeError
  end.

(** [len(data)] *)
Definition py_len (data : pydata) : result nat :=
  match data with
  | DStr s => Ok (String.length s)
  | DArray _ (n :: _) => Ok n
  | DList l | DTuple l => Ok (length l)
  | DDict kvs => Ok (length kvs)
  | _ => Raise TypeError
  end.

(** What iterating [make_iterable(data)] yields. *)
Definition data_iterable (data : pydata) : list pydata :=
  match data with
  | DDict kvs => map snd kvs
  | DList l | DTuple l => l
  | DStr s => map (fun c => DStr (String c EmptyString)) (list_ascii_of_string s)
  | DArray d (n :: shape) => repeat (DArray d shape) n
  | _ => []
  end.

(** [type(data)] *)
Definition type_of (data : pydata) : pytype :=
  match data with
  | DInt _ => T_int
  | DFloat => T_float
  | DBool _ => T_bool
  | DNone => T_NoneType
  | DStr _ => T_str
  | DNp d => T_np d
  | DArray _ _ => T_ArrayImpl
  | DList _ => T_list
  | DTuple _ => T_tuple
  | DDict _ => T_dict
  end.

(** [issubclass(t, u)] over the classes of the model: [bool] derives from
    [int], [np.float64] from [float], [np.complex128] from [complex], the
    concrete array class from [jax.Array], everything from [object]. *)
Definition issubclass (t u : pytype) : bool :=
  if pytype_eq_dec t u then true
  else
    match t, u with
    | _, T_object => true
    | T_bool, T_int => true
    | T_np float64, T_float => true
    | T_np complex128, T_complex => true
    | T_ArrayImpl, T_Array => true
    | _, _ => false
    end.

(** The families of the NumPy scalar hierarchy that the validator asks for. *)
Inductive family := Integer | Floating | Boolean | OtherKind.

Definition dtype_family (d : dtype) : family :=
  match d with
  | int8 | int16 | int32 | int64 | uint8 | uint16 | uint32 | uint64 => Integer
  | float16 | bfloat16 | float32 | float64 => Floating
  | bool_ => Boolean
  | complex64 | complex128 => OtherKind
  end.

(** The family of the element type a type object converts to: [int],
    [float] and [bool] convert to the default integer, float and boolean
    element types, a scalar type to itself, any other class to [object]. *)
Definition type_family (t : pytype) : family :=
  match t with
  | T_int => Integer
  | T_float => Floating
  | T_bool => Boolean
  | T_np d => dtype_family d
  | _ => OtherKind
  end.

Definition family_eqb (a b : family) : bool :=
  match a, b with
  | Integer, Integer | Floating, Floating | Boolean, Boolean
  | OtherKind, OtherKind => true
  | _, _ => false
  end.

(** [jnp.issubdtype(t, jnp.integer)], [jnp.issubdtype(t, jnp.floating)] and
    [jnp.issubdtype(t, bool)] *)
Definition issubdtype (t : pytype) (f : family) : bool :=
  family_eqb (type_family t) f.

(** [isinstance(data, jnp.ndarray) and (data.size == 1)] *)
Definition is_single_number_tracer (data : pydata) : bool :=
  match data with
  | DArray _ shape => Nat.eqb (fold_right Nat.mul 1 shape) 1
  | _ => false
  end.

(** [data.dtype if is_single_number_tracer else type(data)] *)
Definition data_type (data : pydata) : pytype :=
  match data with
  | DArray d _ => if is_single_number_tracer data then T_np d else type_of data
  | _ => type_of data
  end.

(** The type assertions: [assert cond, f"... ({data_type.__name__}) ..."].
    The message is formatted when the assertion fails; a class has a
    [__name__], the [dtype] of a size-one array has none, so that for such an
    array the failure is the [AttributeError] of the formatting. *)
Definition assert_type (cond : bool) (data : pydata) : result unit :=
  if cond then Ok tt
  else if is_single_number_tracer data then Raise AttributeError
  else Raise (AssertionError TypeMismatch).

(** [check_pytree_axis] *)
Fixpoint check_pytree_axis (data : pydata) (axis : pytree) {struct axis} : result unit :=
  if is_pytree_leaf axis then
    n <- ndim data ;;
    assert (Nat.eqb (length (make_iterable axis)) n) ShapeMismatch
  else
    match axis with
    | PDict kvs =>
        n <- py_len data ;;
        _ <- assert (Nat.eqb (length kvs) n) ElementsMismatch ;;
        (fix loop (ds : list pydata) (items : list (string * pytree)) {struct items} : result unit :=
           match ds, items with
           | d :: ds', ka :: items' =>
               _ <- check_pytree_axis d (snd ka) ;; loop ds' items'
           | _, _ => Ok tt
           end) (data_iterable data) kvs
    | PList l | PTuple l =>
        n <- py_len data ;;
        _ <- assert (Nat.eqb (length l) n) ElementsMismatch ;;
        (fix loop (ds : list pydata) (axes : list pytree) {struct axes} : result unit :=
           match ds, axes with
           | d :: ds', a :: axes' =>
               _ <- check_pytree_axis d a ;; loop ds' axes'
           | _, _ => Ok tt
           end) (data_iterable data) l
    | PType t =>
        if issubdtype t Integer then
          assert_type (issubdtype (data_type data) Integer) data
        else if issubdtype t Floating then
          assert_type (issubdtype (data_type data) Floating) data
        else if issubdtype t Boolean then
          assert_type (issubdtype (data_type data) Boolean) data
        else
          assert_type (issubclass (type_of data) t) data
    | _ => Ok tt
    end.

(** ** FUNCTION WRAPING *)

(** Callables are kept symbolic: the function given by the user, a call of
    the external [vmap], the checking wrapper of [runtime_check_axis], and a
    wrapper that [set_documentation] has given a signature. *)
Inductive callable :=
| Func (name : string)
| Vmap (f_batched : callable) (in_axes out_axes : pytree)
| WrappedFunc (func : callable) (in_axes out_axes : pytree)
| Documented (func : callable) (parameters : list string).

(** [runtime_check_axis] *)
Definition runtime_check_axis (func : callable) (in_axes out_axes : pytree) : callable :=
  WrappedFunc func in_axes out_axes.

(** [in_axes.items()], [in_axes.values()], [in_axes.keys()]: a dictionary has
    them; the class [dict] has them as methods that want their dictionary and
    raise [TypeError] without it; nothing else has them. *)
Definition dict_items (t : pytree) : result (list (string * pytree)) :=
  match t with
  | PDict kvs => Ok kvs
  | PType T_dict => Raise TypeError
  | _ => Raise AttributeError
  end.

(** [Signature([Parameter(name, POSITIONAL_OR_KEYWORD) for name in keys])] of
    the [inspect] library: the names of the parameters of the signature, or
    the error raised for a key that is no parameter name.  The library is
    not part of the program: its behaviour is an argument of what uses it. *)
Definition signature_of_keys : Type := list string -> result (list string).

(** [set_documentation], without the text of the docstring: the docstring is
    written from the items of [in_axes], then the signature is built from
    its keys. *)
Definition set_documentation (signature : signature_of_keys)
           (func : callable) (in_axes out_axes : pytree)
           (reference_func : callable) : result callable :=
  items <- dict_items in_axes ;;
  parameters <- signature (map fst items) ;;
  Ok (Documented func parameters).

(** ** XMAP *)

(** [recursive_xmap].  [depth] bounds the nesting of the recursive calls
    ([None] when it is exceeded), so that the depth the source reaches can be
    stated. *)
Fixpoint recursive_xmap (depth : nat) (f : callable) (in_axes out_axes : pytree)
  : option (result callable) :=
  match depth with
  | 0 => None
  | S depth' =>
      let named_output_axis := find_in_pytree is_str out_axes in
      if is_None named_output_axis then
        let named_input_axis := find_in_pytree is_str in_axes in
        Some (_ <- assert (is_None named_input_axis) (UnusedInputAxis named_input_axis) ;;
              Ok (runtime_check_axis f in_axes out_axes))
      else
        let filtered_in_axes := filter_pytree (fun a => py_ne a named_output_axis) in_axes in
        let filtered_out_axes := filter_pytree (fun a => py_ne a named_output_axis) out_axes in
        match recursive_xmap depth' f filtered_in_axes filtered_out_axes with
        | None => None
        | Some r =>
            Some (f_batched <- r ;;
                  items <- dict_items in_axes ;;
                  let in_axes_indices := index_in_pytree named_output_axis (PList (map snd items)) in
                  let out_axes_indices := index_in_pytree named_output_axis out_axes in
                  let f_result := Vmap f_batched in_axes_indices out_axes_indices in
                  Ok (runtime_check_axis f_result in_axes out_axes))
        end
  end.

(** [xmap] *)
Definition xmap (signature : signature_of_keys)
           (depth : nat) (f : callable) (in_axes out_axes : pytree)
  : option (result callable) :=
  match recursive_xmap depth f in_axes out_axes with
  | None => None
  | Some r =>
      Some (f_batched <- r ;;
            set_documentation signature f_batched in_axes out_axes f)
  end.

(** [wrapped_func], the closure that [runtime_check_axis] returns, for a
    function that acts on a state [S] besides returning or raising: the
    arguments come as a tuple, the function is called once they have passed,
    its output is checked after the call. *)
Definition wrapped_func {S : Type} (func : list pydata -> S -> result pydata * S)
           (in_axes out_axes : pytree) (args : list pydata) (s : S)
  : result pydata * S :=
  match check_pytree_axis (DTuple args) in_axes with
  | Raise e => (Raise e, s)
  | Ok _ =>
      let (r, s') := func args s in
      match r with
      | Raise e => (Raise e, s')
      | Ok output =>
          match check_pytree_axis output out_axes with
          | Raise e => (Raise e, s')
          | Ok _ => (Ok output, s')
          end
      end
  end.

(** ** Vocabulary of the specification *)

(** The tags of a tree: the elements of its leaves, depth first, a leaf's in
    their order, a container's children in iteration order. *)
Fixpoint tags (t : pytree) : list pytree :=
  if is_pytree_leaf t then make_iterable t
  else
    match t with
    | PList l | PTuple l => flat_map tags l
    | PDict kvs => flat_map (fun kv => tags (snd kv)) kvs
    | _ => []
    end.

(** The leaves of a tree, depth first. *)
Fixpoint leaves (t : pytree) : list (list pytree) :=
  if is_pytree_leaf t then [make_iterable t]
  else
    match t with
    | PList l | PTuple l => flat_map leaves l
    | PDict kvs => flat_map (fun kv => leaves (snd kv)) kvs
    | _ => []
    end.

(** The named axes of a tree: its tags that are strings. *)
Definition named_axes (t : pytree) : list pytree := filter is_str (tags t).

(** A list without its repetitions, every element at its first place. *)
Fixpoint distinct (l : list pytree) : list pytree :=
  match l with
  | [] => []
  | x :: r => x :: filter (fun a => py_ne a x) (distinct r)
  end.

(** The order of elimination: the named axes of the output specification in
    increasing order of first appearance. *)
Definition elimination_order (out_axes : pytree) : list pytree :=
  distinct (named_axes out_axes).

(** The nest of vectorising calls for a list of labels, outermost first. *)
Fixpoint nest (f : callable) (in_axes out_axes : pytree) (order : list pytree) : callable :=
  match order with
  | [] => WrappedFunc f in_axes out_axes
  | L :: rest =>
      WrappedFunc
        (Vmap (nest f (filter_pytree (fun a => py_ne a L) in_axes)
                      (filter_pytree (fun a => py_ne a L) out_axes) rest)
              (index_in_pytree L (PList (make_iterable in_axes)))
              (index_in_pytree L out_axes))
        in_axes out_axes
  end.

(** The number of [vmap] calls and of checking wrappers in a callable. *)
Fixpoint vmap_calls (c : callable) : nat :=
  match c with
  | Func _ => 0
  | Vmap g _ _ => S (vmap_calls g)
  | WrappedFunc g _ _ => vmap_calls g
  | Documented g _ => vmap_calls g
  end.

Fixpoint validators (c : callable) : nat :=
  match c with
  | Func _ => 0
  | Vmap g _ _ => validators g
  | WrappedFunc g _ _ => S (validators g)
  | Documented g _ => validators g
  end.

(** The recursion of [recursive_xmap], unrolled along a list of labels. *)
Fixpoint eliminate (f : callable) (in_axes out_axes : pytree) (order : list pytree)
  : result callable :=
  match order with
  | [] =>
      let named_input_axis := find_in_pytree is_str in_axes in
      _ <- assert (is_None named_input_axis) (UnusedInputAxis named_input_axis) ;;
      Ok (runtime_check_axis f in_axes out_axes)
  | L :: rest =>
      f_batched <- eliminate f (filter_pytree (fun a => py_ne a L) in_axes)
                               (filter_pytree (fun a => py_ne a L) out_axes) rest ;;
      items <- dict_items in_axes ;;
      Ok (runtime_check_axis
            (Vmap f_batched (index_in_pytree L (PList (map snd items)))
                  (index_in_pytree L out_axes))
            in_axes out_axes)
  end.

(** The entries of a composite value, in iteration order. *)
Definition entries (data : pydata) : option (list pydata) :=
  match data with
  | DList l | DTuple l => Some l
  | DDict kvs => Some (map snd kvs)
  | _ => None
  end.

(** A value agrees with a type descriptor: for the integer, floating and
    boolean families the element type of the value (of a size-one array its
    [dtype]) is of the family; any other descriptor is the type of the
    value. *)
Definition type_consistent (data : pydata) (t : pytype) : Prop :=
  match type_family t with
  | OtherKind => type_of data = t
  | fam => type_family (data_type data) = fam
  end.

(** A value tree and a specification of the same shape with consistent rank
    and type tags: a rank descriptor faces a value of as many dimensions as
    it has tags, a container a composite value with as many entries, which
    agree one by one, a type descriptor a value of that type, and any other
    single value anything. *)
Unset Elimination Schemes.
Inductive conforms : pydata -> pytree -> Prop :=
| conforms_rank data tags_ :
    existsb is_container tags_ = false ->
    ndim data = Ok (length tags_) ->
    conforms data (PList tags_)
| conforms_list data ds l :
    existsb is_container l = true ->
    entries data = Some ds ->
    Forall2 conforms ds l ->
    conforms data (PList l)
| conforms_tuple data ds l :
    entries data = Some ds ->
    Forall2 conforms ds l ->
    conforms data (PTuple l)
| conforms_dict data ds kvs :
    entries data = Some ds ->
    Forall2 conforms ds (map snd kvs) ->
    conforms data (PDict kvs)
| conforms_type data t :
    type_consistent data t ->
    conforms data (PType t)
| conforms_str data s : conforms data (PStr s)
| conforms_none data : conforms data PNone
| conforms_ellipsis data : conforms data PEllipsis
| conforms_int data z : conforms data (PInt z).
Set Elimination Schemes.

(** The node reached from the root through containers that are not leaves,
    taking at each one the entry of the given rank. *)
Fixpoint at_path (path : list nat) (t : pytree) : option pytree :=
  match path with
  | [] => Some t
  | i :: rest =>
      if is_pytree_leaf t then None
      else
        match nth_error (make_iterable t) i with
        | Some child => at_path rest child
        | None => None
        end
  end.

(** The node reached from the root taking at each node the entry of the
    given rank, whatever the node. *)
Fixpoint subtree (path : list nat) (t : pytree) : option pytree :=
  match path with
  | [] => Some t
  | i :: rest =>
      match nth_error (make_iterable t) i with
      | Some child => subtree rest child
      | None => None
      end
  end.

(** The specifications of the innermost checking wrapper of a callable, the
    one that stands next to the function of the user. *)
Fixpoint innermost_check (c : callable) : option (pytree * pytree) :=
  match c with
  | Func _ => None
  | Vmap g _ _ => innermost_check g
  | Documented g _ => innermost_check g
  | WrappedFunc g in_axes out_axes =>
      match innermost_check g with
      | Some specs => Some specs
      | None => Some (in_axes, out_axes)
      end
  end.

(** ** Examples *)

Definition ex_in : pytree :=
  PDict [("x", PList [PStr "row"; PStr "col"]); ("y", PList [PStr "row"; PStr "col"])].
Definition ex_out : pytree := PList [PStr "row"; PStr "col"].

Definition ex_args : pydata :=
  DTuple [DArray float32 [2; 3]; DDict [("n", DInt 7); ("flag", DBool true)];
          DArray int32 [1]; DStr "free"].
Definition ex_spec : pytree :=
  PDict [("x", PList [PStr "row"; PType T_float]);
         ("opts", PTuple [PType T_int; PType T_bool]);
         ("k", PType (T_np int8));
         ("rest", PEllipsis)].

Definition ex_bare : pytree := PTuple [PList [PStr "b"]; PStr "a"].

(** A function that counts its calls. *)
Definition ex_double (args : list pydata) (calls : nat) : result pydata * nat :=
  (Ok (DArray float32 [3]), S calls).


(** * Properties *)

Example ex_two_axes :
  recursive_xmap 3 (Func "f") ex_in ex_out
  = Some (Ok (nest (Func "f") ex_in ex_out [PStr "row"; PStr "col"])).
Proof. reflexivity. Qed.

Example ex_two_axes_indices :
  exists g, recursive_xmap 3 (Func "f") ex_in ex_out
  = Some (Ok (WrappedFunc (Vmap g (PList [PInt 0; PInt 0]) (PInt 0)) ex_in ex_out)).
Proof. eexists. reflexivity. Qed.

Example ex_unused :
  recursive_xmap 2 (Func "f") (PDict [("x", PList [PStr "a"])]) (PList [PStr "b"])
  = Some (Raise (AssertionError (UnusedInputAxis (PStr "a")))).
Proof. reflexivity. Qed.

(** ** Leaves, containers and the structure preserving map *)

Lemma is_pytree_leaf_inv (t : pytree) :
  is_pytree_leaf t = true ->
  exists l, t = PList l /\ existsb is_container l = false.
Proof.
  destruct t; simpl; try discriminate.
  intros H. exists l. split; [reflexivity|].
  now apply negb_true_iff in H.
Qed.

Lemma existsb_filter_false {A : Type} (p c : A -> bool) (l : list A) :
  existsb p l = false -> existsb p (filter c l) = false.
Proof.
  induction l as [|x l IH]; simpl; [easy|].
  intros H. apply orb_false_iff in H as [Hx Hl].
  destruct (c x); simpl; [rewrite Hx|]; auto.
Qed.

Section MapLeaves.
Variable func : list pytree -> pytree.
Variable func_single_values : pytree -> pytree.

(** The leaf transform yields a container, the single value transform
    none: so it is with both uses in the source. *)
Hypothesis func_container : forall l, is_container (func l) = true.
Hypothesis single_not_container :
  forall v, is_container v = false -> is_container (func_single_values v) = false.

Lemma map_pytree_leaves_container (t : pytree) :
  is_container (map_pytree_leaves func t func_single_values) = is_container t.
Proof.
  destruct t; simpl;
    try (now rewrite single_not_container);
    try reflexivity.
  destruct (negb (existsb is_container l)); [apply func_container | reflexivity].
Qed.

Lemma existsb_map_leaves (l : list pytree) :
  existsb is_container
          (map (fun v => map_pytree_leaves func v func_single_values) l)
  = existsb is_container l.
Proof.
  induction l as [|x l IH]; simpl; [reflexivity|].
  now rewrite map_pytree_leaves_container, IH.
Qed.
End MapLeaves.

Lemma filter_pytree_leaf (c : pytree -> bool) (l : list pytree) :
  existsb is_container l = false ->
  filter_pytree c (PList l) = PList (filter c l).
Proof.
  intros H. unfold filter_pytree. simpl. now rewrite H.
Qed.

Lemma filter_pytree_list (c : pytree -> bool) (l : list pytree) :
  existsb is_container l = true ->
  filter_pytree c (PList l) = PList (map (filter_pytree c) l).
Proof.
  intros H. unfold filter_pytree. simpl. now rewrite H.
Qed.

Lemma filter_pytree_container (c : pytree -> bool) (t : pytree) :
  is_container (filter_pytree c t) = is_container t.
Proof.
  unfold filter_pytree. apply map_pytree_leaves_container; auto.
Qed.

Lemma existsb_filter_pytree (c : pytree -> bool) (l : list pytree) :
  existsb is_container (map (filter_pytree c) l) = existsb is_container l.
Proof.
  unfold filter_pytree. apply existsb_map_leaves; auto.
Qed.

Lemma flat_map_tags_filter (c : pytree -> bool) (l : list pytree) :
  Forall (fun t => tags (filter_pytree c t) = filter c (tags t)) l ->
  flat_map tags (map (filter_pytree c) l) = filter c (flat_map tags l).
Proof.
  induction 1 as [|x r Hx _ IHr]; simpl; [reflexivity|].
  now rewrite filter_app, Hx, IHr.
Qed.

(** Filtering the tree filters its tags. *)
Lemma tags_filter_pytree (c : pytree -> bool) (t : pytree) :
  tags (filter_pytree c t) = filter c (tags t).
Proof.
  induction t as [s|ty| | |z|l IH|l IH|kvs IH] using pytree_nested_ind; try reflexivity.
  - destruct (existsb is_container l) eqn:E.
    + rewrite filter_pytree_list by exact E.
      simpl. rewrite existsb_filter_pytree, E. simpl.
      now apply flat_map_tags_filter.
    + rewrite filter_pytree_leaf by exact E.
      simpl. rewrite E, (existsb_filter_false _ _ _ E). reflexivity.
  - unfold filter_pytree. simpl. fold (filter_pytree c).
    now apply flat_map_tags_filter.
  - unfold filter_pytree. simpl. fold (filter_pytree c).
    induction IH as [|x r Hx _ IHr]; simpl; [reflexivity|].
    unfold filter_pytree in Hx. now rewrite filter_app, Hx, IHr.
Qed.

(** ** Search *)

Lemma first_value_hd (c : pytree -> bool) (l : list pytree) :
  first_value c l = hd PNone (filter c l).
Proof.
  induction l as [|x l IH]; simpl; [reflexivity|].
  destruct (c x); [reflexivity | exact IH].
Qed.

Lemma hd_filter_None (c : pytree -> bool) (l : list pytree) :
  c PNone = false -> is_None (hd PNone (filter c l)) = true -> filter c l = [].
Proof.
  intros Hc H. destruct (filter c l) as [|x r] eqn:E; [reflexivity|].
  simpl in H. destruct x; try discriminate.
  assert (In PNone (filter c l)) as Hin by (rewrite E; now left).
  apply filter_In in Hin as [_ Hin]. congruence.
Qed.

Lemma hd_app_nonempty (l r : list pytree) :
  l <> [] -> hd PNone (l ++ r) = hd PNone l.
Proof. destruct l; [congruence | reflexivity]. Qed.

(** A predicate that rejects [None] gets the first tag it accepts. *)
Lemma find_in_pytree_tags (c : pytree -> bool) (t : pytree) :
  c PNone = false ->
  find_in_pytree c t = hd PNone (filter c (tags t)).
Proof.
  intros Hc.
  assert (Hloop : forall l : list pytree,
             Forall (fun t => find_in_pytree c t = hd PNone (filter c (tags t))) l ->
             (fix loop (data : list pytree) : pytree :=
                match data with
                | [] => PNone
                | element :: rest =>
                    let result := find_in_pytree c element in
                    if negb (is_None result) then result else loop rest
                end) l = hd PNone (filter c (flat_map tags l))).
  { induction 1 as [|x r Hx _ IHr]; [reflexivity|].
    simpl. rewrite Hx, filter_app.
    destruct (is_None (hd PNone (filter c (tags x)))) eqn:E; simpl.
    - rewrite (hd_filter_None _ _ Hc E). exact IHr.
    - rewrite hd_app_nonempty; [reflexivity|].
      intros H. rewrite H in E. discriminate. }
  induction t as [s|ty| | |z|l IH|l IH|kvs IH] using pytree_nested_ind; try reflexivity.
  - simpl. destruct (negb (existsb is_container l)).
    + apply first_value_hd.
    + now apply Hloop.
  - simpl. now apply Hloop.
  - simpl. induction IH as [|x r Hx _ IHr]; [reflexivity|].
    simpl. rewrite Hx, filter_app.
    destruct (is_None (hd PNone (filter c (tags (snd x))))) eqn:E; simpl.
    + rewrite (hd_filter_None _ _ Hc E). exact IHr.
    + rewrite hd_app_nonempty; [reflexivity|].
      intros H. rewrite H in E. discriminate.
Qed.

Lemma find_named_axis (t : pytree) :
  find_in_pytree is_str t = hd PNone (named_axes t).
Proof. now apply find_in_pytree_tags. Qed.

(** ** Equality of tags and lists without repetition *)

Lemma py_eq_true (a b : pytree) : py_eq a b = true -> a = b.
Proof.
  destruct a, b; simpl; try discriminate; intros H.
  - apply String.eqb_eq in H. now subst.
  - destruct (pytype_eq_dec t t0); [now subst | discriminate].
  - reflexivity.
  - reflexivity.
  - apply Z.eqb_eq in H. now subst.
Qed.

Lemma py_eq_refl (a : pytree) : is_container a = false -> py_eq a a = true.
Proof.
  destruct a; simpl; try discriminate; intros _.
  - apply String.eqb_refl.
  - now destruct (pytype_eq_dec t t).
  - reflexivity.
  - reflexivity.
  - apply Z.eqb_refl.
Qed.

Lemma is_str_not_container (a : pytree) : is_str a = true -> is_container a = false.
Proof. now destruct a. Qed.

Lemma py_ne_true (a b : pytree) : a <> b -> py_ne a b = true.
Proof.
  intros H. unfold py_ne. destruct (py_eq a b) eqn:E; [|reflexivity].
  now apply py_eq_true in E.
Qed.

Lemma py_ne_true_inv (a b : pytree) :
  is_container a = false -> py_ne a b = true -> a <> b.
Proof.
  intros Ha H ->. unfold py_ne in H. now rewrite py_eq_refl in H.
Qed.

Lemma filter_comm {A : Type} (p q : A -> bool) (l : list A) :
  filter p (filter q l) = filter q (filter p l).
Proof.
  induction l as [|x l IH]; simpl; [reflexivity|].
  destruct (p x) eqn:Hp, (q x) eqn:Hq; simpl; rewrite ?Hp, ?Hq, IH; reflexivity.
Qed.

Lemma filter_idem {A : Type} (p : A -> bool) (l : list A) :
  filter p (filter p l) = filter p l.
Proof.
  induction l as [|x l IH]; simpl; [reflexivity|].
  destruct (p x) eqn:Hp; simpl; rewrite ?Hp, IH; reflexivity.
Qed.

Lemma distinct_filter (x : pytree) (l : list pytree) :
  distinct (filter (fun a => py_ne a x) l)
  = filter (fun a => py_ne a x) (distinct l).
Proof.
  induction l as [|y l IH]; simpl; [reflexivity|].
  destruct (py_ne y x) eqn:E; simpl.
  - now rewrite IH, filter_comm.
  - unfold py_ne in E. apply negb_false_iff, py_eq_true in E. subst y.
    now rewrite IH, filter_idem.
Qed.

Lemma In_distinct (a : pytree) (l : list pytree) :
  In a (distinct l) <-> In a l.
Proof.
  induction l as [|x l IH]; simpl; [tauto|].
  rewrite filter_In, IH. split.
  - tauto.
  - intros [H|H]; [now left|].
    destruct (py_eq a x) eqn:E.
    + left. symmetry. now apply py_eq_true.
    + right. split; [exact H|]. unfold py_ne. now rewrite E.
Qed.

Lemma NoDup_distinct (l : list pytree) :
  Forall (fun a => is_container a = false) l -> NoDup (distinct l).
Proof.
  induction 1 as [|x l Hx _ IH]; simpl; constructor.
  - rewrite filter_In. intros [_ H].
    unfold py_ne in H. now rewrite py_eq_refl in H.
  - now apply NoDup_filter.
Qed.

Lemma named_axes_str (t : pytree) :
  Forall (fun a => is_container a = false) (named_axes t).
Proof.
  apply Forall_forall. intros a H.
  apply filter_In in H as [_ H]. now apply is_str_not_container.
Qed.

Lemma named_axes_filter_pytree (c : pytree -> bool) (t : pytree) :
  named_axes (filter_pytree c t) = filter c (named_axes t).
Proof.
  unfold named_axes. rewrite tags_filter_pytree. apply filter_comm.
Qed.

(** ** The order of elimination *)

Lemma elimination_order_nil (out_axes : pytree) :
  is_None (find_in_pytree is_str out_axes) = true ->
  elimination_order out_axes = [].
Proof.
  rewrite find_named_axis. unfold elimination_order. intros H.
  unfold named_axes in *. now rewrite (hd_filter_None is_str _ eq_refl H).
Qed.

Lemma elimination_order_cons (out_axes : pytree) :
  let L := find_in_pytree is_str out_axes in
  is_None L = false ->
  elimination_order out_axes
  = L :: elimination_order (filter_pytree (fun a => py_ne a L) out_axes).
Proof.
  intros L. subst L. rewrite find_named_axis. unfold elimination_order.
  rewrite named_axes_filter_pytree.
  pose proof (named_axes_str out_axes) as Hs.
  destruct (named_axes out_axes) as [|L r]; simpl; [discriminate|].
  intros _. inversion Hs as [|? ? HL _]; subst.
  assert (py_ne L L = false) as -> by (unfold py_ne; now rewrite py_eq_refl).
  now rewrite distinct_filter.
Qed.

Lemma recursive_xmap_unroll (depth : nat) (f : callable) :
  forall in_axes out_axes,
    recursive_xmap depth f in_axes out_axes
    = if Nat.ltb (length (elimination_order out_axes)) depth
      then Some (eliminate f in_axes out_axes (elimination_order out_axes))
      else None.
Proof.
  induction depth as [|depth IH]; intros in_axes out_axes; [reflexivity|].
  cbn [recursive_xmap].
  destruct (is_None (find_in_pytree is_str out_axes)) eqn:E.
  - rewrite (elimination_order_nil _ E). reflexivity.
  - rewrite (elimination_order_cons _ E), IH.
    cbn [length eliminate].
    change (Nat.ltb (S ?n) (S ?m)) with (Nat.ltb n m).
    destruct (Nat.ltb _ depth); reflexivity.
Qed.

Lemma filter_pytree_dict (c : pytree -> bool) (kvs : list (string * pytree)) :
  filter_pytree c (PDict kvs)
  = PDict (map (fun kv => (fst kv, filter_pytree c (snd kv))) kvs).
Proof. reflexivity. Qed.

Lemma eliminate_nest (f : callable) (order : list pytree) :
  forall in_axes out_axes c,
    eliminate f in_axes out_axes order = Ok c ->
    c = nest f in_axes out_axes order.
Proof.
  induction order as [|L rest IH]; intros in_axes out_axes c; cbn [eliminate nest].
  - unfold runtime_check_axis.
    destruct (is_None (find_in_pytree is_str in_axes)); simpl; congruence.
  - unfold runtime_check_axis.
    destruct (eliminate f _ _ rest) as [g|e] eqn:E; simpl; [|discriminate].
    apply IH in E. subst g.
    destruct in_axes as [|t| | | | | |]; simpl; try discriminate;
      [destruct t; discriminate | congruence].
Qed.

(** Every named axis of the inputs is eliminated: the nest is produced. *)
Lemma eliminate_all_used (f : callable) (order : list pytree) :
  forall kvs out_axes,
    (forall a, In a (named_axes (PDict kvs)) -> In a order) ->
    eliminate f (PDict kvs) out_axes order = Ok (nest f (PDict kvs) out_axes order).
Proof.
  induction order as [|L rest IH]; intros kvs out_axes Hused; cbn [eliminate nest].
  - rewrite find_named_axis.
    destruct (named_axes (PDict kvs)) as [|a r]; [reflexivity|].
    destruct (Hused a). now left.
  - rewrite filter_pytree_dict, IH; [reflexivity|].
    intros a Ha. rewrite <- filter_pytree_dict, named_axes_filter_pytree in Ha.
    apply filter_In in Ha as [Ha Hne].
    destruct (Hused a Ha) as [->|H]; [|exact H].
    pose proof (named_axes_str (PDict kvs)) as Hs.
    rewrite Forall_forall in Hs. specialize (Hs _ Ha).
    unfold py_ne in Hne. now rewrite py_eq_refl in Hne.
Qed.

(** A named axis of the inputs that is not eliminated stops the
    construction: the first one left is reported. *)
Lemma eliminate_unused (f : callable) (order : list pytree) :
  forall in_axes out_axes a,
    In a (named_axes in_axes) -> ~ In a order ->
    exists b, In b (named_axes in_axes) /\ ~ In b order /\
              eliminate f in_axes out_axes order
              = Raise (AssertionError (UnusedInputAxis b)).
Proof.
  induction order as [|L rest IH]; intros in_axes out_axes a Ha Hno; cbn [eliminate].
  - rewrite find_named_axis.
    pose proof (named_axes_str in_axes) as Hs.
    destruct (named_axes in_axes) as [|b r] eqn:E; [destruct Ha|].
    exists b. split; [now left|]. split; [tauto|].
    assert (is_str b = true) as Hb.
    { assert (In b (named_axes in_axes)) as H by (rewrite E; now left).
      now apply filter_In in H. }
    simpl. destruct b; try discriminate. reflexivity.
  - destruct (IH (filter_pytree (fun x => py_ne x L) in_axes)
                 (filter_pytree (fun x => py_ne x L) out_axes) a)
      as (b & Hb & Hnb & Hr).
    + rewrite named_axes_filter_pytree. apply filter_In. split; [exact Ha|].
      apply py_ne_true. intros ->. apply Hno. now left.
    + intros H. apply Hno. now right.
    + rewrite named_axes_filter_pytree in Hb. apply filter_In in Hb as [Hb Hne].
      exists b. split; [exact Hb|]. split.
      * intros [<-|H]; [|tauto].
        pose proof (named_axes_str in_axes) as Hs.
        rewrite Forall_forall in Hs. specialize (Hs _ Hb).
        unfold py_ne in Hne. now rewrite py_eq_refl in Hne.
      * now rewrite Hr.
Qed.

Lemma vmap_calls_nest (f : callable) (order : list pytree) :
  forall in_axes out_axes,
    vmap_calls (nest f in_axes out_axes order) = vmap_calls f + length order.
Proof.
  induction order as [|L rest IH]; intros; simpl; [lia|]. rewrite IH. lia.
Qed.

Lemma validators_nest (f : callable) (order : list pytree) :
  forall in_axes out_axes,
    validators (nest f in_axes out_axes order) = validators f + S (length order).
Proof.
  induction order as [|L rest IH]; intros; simpl; [lia|]. rewrite IH. lia.
Qed.

Lemma tags_not_container (t : pytree) :
  Forall (fun a => is_container a = false) (tags t).
Proof.
  induction t as [s|ty| | |z|l IH|l IH|kvs IH] using pytree_nested_ind;
    try (now constructor).
  - simpl. destruct (existsb is_container l) eqn:E; simpl.
    + clear E. induction IH as [|x r Hx _ IHr]; simpl; [constructor|].
      apply Forall_app. now split.
    + apply Forall_forall. intros a Ha.
      destruct (is_container a) eqn:Ea; [|reflexivity].
      assert (existsb is_container l = true) by (apply existsb_exists; eauto).
      congruence.
  - simpl. induction IH as [|x r Hx _ IHr]; simpl; [constructor|].
    apply Forall_app. now split.
  - simpl. induction IH as [|x r Hx _ IHr]; simpl; [constructor|].
    apply Forall_app. now split.
Qed.

(** ** The elimination engine *)

(** C1.  [recursive_xmap] eliminates the named axes in increasing order of
    their first depth-first appearance among the tags of the output
    specification, and the first one met gets the outermost [vmap]: whenever
    every named axis of the inputs occurs in the outputs and the recursion
    is given room, the callable built for a dictionary of input
    specifications is the nest over [elimination_order out_axes], whose
    outermost vectorising call is the one of the first label and wraps the
    callable built for the labels that remain. *)
Theorem recursive_xmap_elimination_order
        (depth : nat) (f : callable) (kvs : list (string * pytree)) (out_axes : pytree) :
  length (elimination_order out_axes) < depth ->
  (forall a, In a (named_axes (PDict kvs)) -> In a (named_axes out_axes)) ->
  recursive_xmap depth f (PDict kvs) out_axes
  = Some (Ok (nest f (PDict kvs) out_axes (elimination_order out_axes)))
  /\ (forall L rest,
         elimination_order out_axes = L :: rest ->
         find_in_pytree is_str out_axes = L
         /\ elimination_order (filter_pytree (fun a => py_ne a L) out_axes) = rest
         /\ nest f (PDict kvs) out_axes (elimination_order out_axes)
            = WrappedFunc
                (Vmap (nest f (filter_pytree (fun a => py_ne a L) (PDict kvs))
                              (filter_pytree (fun a => py_ne a L) out_axes) rest)
                      (index_in_pytree L (PList (map snd kvs)))
                      (index_in_pytree L out_axes))
                (PDict kvs) out_axes).
Proof.
  intros Hdepth Hused. split.
  - rewrite recursive_xmap_unroll.
    apply Nat.ltb_lt in Hdepth. rewrite Hdepth.
    rewrite eliminate_all_used; [reflexivity|].
    intros a Ha. apply In_distinct. now apply Hused.
  - intros L rest E.
    destruct (is_None (find_in_pytree is_str out_axes)) eqn:EN.
    + rewrite (elimination_order_nil _ EN) in E. discriminate.
    + pose proof (elimination_order_cons _ EN) as E'. cbv zeta in E'.
      rewrite E in E'. injection E' as HL Hrest. subst L.
      split; [reflexivity|]. split; [now symmetry|].
      rewrite E. reflexivity.
Qed.

Lemma recursive_xmap_elimination_order_witness :
  recursive_xmap 3 (Func "f") ex_in ex_out
  = Some (Ok (nest (Func "f") ex_in ex_out (elimination_order ex_out)))
  /\ (forall L rest,
         elimination_order ex_out = L :: rest ->
         find_in_pytree is_str ex_out = L
         /\ elimination_order (filter_pytree (fun a => py_ne a L) ex_out) = rest
         /\ nest (Func "f") ex_in ex_out (elimination_order ex_out)
            = WrappedFunc
                (Vmap (nest (Func "f") (filter_pytree (fun a => py_ne a L) ex_in)
                              (filter_pytree (fun a => py_ne a L) ex_out) rest)
                      (index_in_pytree L
                         (PList (map snd [("x", PList [PStr "row"; PStr "col"]);
                                          ("y", PList [PStr "row"; PStr "col"])])))
                      (index_in_pytree L ex_out))
                ex_in ex_out).
Proof.
  apply (recursive_xmap_elimination_order 3 (Func "f")
           [("x", PList [PStr "row"; PStr "col"]); ("y", PList [PStr "row"; PStr "col"])]
           ex_out).
  - vm_compute. lia.
  - vm_compute. intros a H. tauto.
Defined.

(** C2.  [recursive_xmap] terminates, and the depth of its recursion is the
    number of distinct named axes among the tags of the output
    specification: a budget of nested calls is enough exactly when it
    exceeds that number.  Each step takes every occurrence of one label, the
    first named axis of the outputs, out of both specifications, leaves the
    other tags as they are, leaves one label less to eliminate, and puts one
    call of [vmap], with the positions of that label, around what the
    recursive call returns; the last call, which finds no label, makes no
    call of [vmap].  So the callable returned for a dictionary of input
    specifications without unused axis, and any callable returned, holds as
    many [vmap] calls more than [f] as there are labels. *)
Theorem recursive_xmap_depth
        (depth : nat) (f : callable) (in_axes out_axes : pytree) :
  NoDup (elimination_order out_axes)
  /\ (forall a, In a (elimination_order out_axes)
                <-> In a (tags out_axes) /\ is_str a = true)
  /\ (recursive_xmap depth f in_axes out_axes <> None
      <-> length (elimination_order out_axes) < depth)
  /\ (forall c, recursive_xmap depth f in_axes out_axes = Some (Ok c) ->
                vmap_calls c = vmap_calls f + length (elimination_order out_axes))
  /\ (forall kvs,
         in_axes = PDict kvs ->
         (forall a, In a (named_axes in_axes) -> In a (named_axes out_axes)) ->
         length (elimination_order out_axes) < depth ->
         exists c,
           recursive_xmap depth f in_axes out_axes = Some (Ok c)
           /\ vmap_calls c = vmap_calls f + length (elimination_order out_axes))
  /\ (let L := find_in_pytree is_str out_axes in
      is_None L = false ->
      let filtered_in_axes := filter_pytree (fun a => py_ne a L) in_axes in
      let filtered_out_axes := filter_pytree (fun a => py_ne a L) out_axes in
      (forall a, In a (tags filtered_in_axes) <-> In a (tags in_axes) /\ a <> L)
      /\ (forall a, In a (tags filtered_out_axes) <-> In a (tags out_axes) /\ a <> L)
      /\ S (length (elimination_order filtered_out_axes))
         = length (elimination_order out_axes)
      /\ recursive_xmap (S depth) f in_axes out_axes
         = match recursive_xmap depth f filtered_in_axes filtered_out_axes with
           | None => None
           | Some r =>
               Some (f_batched <- r ;;
                     items <- dict_items in_axes ;;
                     Ok (WrappedFunc
                           (Vmap f_batched
                                 (index_in_pytree L (PList (map snd items)))
                                 (index_in_pytree L out_axes))
                           in_axes out_axes))
           end)
  /\ (is_None (find_in_pytree is_str out_axes) = true ->
      recursive_xmap (S depth) f in_axes out_axes
      = Some (if is_None (find_in_pytree is_str in_axes)
              then Ok (WrappedFunc f in_axes out_axes)
              else Raise (AssertionError
                            (UnusedInputAxis (find_in_pytree is_str in_axes))))).
Proof.
  split; [apply NoDup_distinct, named_axes_str|].
  split.
  { intros a. unfold elimination_order. rewrite In_distinct.
    unfold named_axes. apply filter_In. }
  split.
  { rewrite recursive_xmap_unroll.
    destruct (Nat.ltb _ depth) eqn:E.
    - apply Nat.ltb_lt in E. split; [intros _; exact E | discriminate].
    - apply Nat.ltb_ge in E. split; [congruence | lia]. }
  split.
  { intros c. rewrite recursive_xmap_unroll.
    destruct (Nat.ltb _ depth); [|discriminate].
    intros H. injection H as H. apply eliminate_nest in H. subst c.
    apply vmap_calls_nest. }
  split.
  { intros kvs -> Hused Hdepth.
    exists (nest f (PDict kvs) out_axes (elimination_order out_axes)).
    split; [|apply vmap_calls_nest].
    rewrite recursive_xmap_unroll. apply Nat.ltb_lt in Hdepth. rewrite Hdepth.
    rewrite eliminate_all_used; [reflexivity|].
    intros a Ha. apply In_distinct. now apply Hused. }
  split.
  { intros L HL filtered_in_axes filtered_out_axes.
    assert (Hrem : forall t a,
               In a (tags (filter_pytree (fun a => py_ne a L) t))
               <-> In a (tags t) /\ a <> L).
    { intros t a. rewrite tags_filter_pytree, filter_In.
      split; intros [Ha Hne]; (split; [exact Ha|]).
      - apply py_ne_true_inv; [|exact Hne].
        pose proof (tags_not_container t) as Hc.
        rewrite Forall_forall in Hc. now apply Hc.
      - now apply py_ne_true. }
    split; [apply Hrem|]. split; [apply Hrem|]. split.
    - subst filtered_out_axes.
      pose proof (elimination_order_cons out_axes HL) as E. cbv zeta in E.
      fold L in E. now rewrite E.
    - cbn [recursive_xmap]. fold L. rewrite HL. reflexivity. }
  intros HL. cbn [recursive_xmap]. rewrite HL.
  now destruct (is_None (find_in_pytree is_str in_axes)).
Qed.

Lemma recursive_xmap_depth_witness :
  recursive_xmap 3 (Func "f") ex_in ex_out <> None
  /\ recursive_xmap 2 (Func "f") ex_in ex_out = None
  /\ length (elimination_order ex_out) = 2
  /\ (exists c,
         recursive_xmap 3 (Func "f") ex_in ex_out = Some (Ok c)
         /\ vmap_calls c = vmap_calls (Func "f") + length (elimination_order ex_out))
  /\ S (length (elimination_order
                  (filter_pytree (fun a => py_ne a (PStr "row")) ex_out))) = 2
  /\ recursive_xmap 3 (Func "f") ex_in ex_out
     = match recursive_xmap 2 (Func "f")
               (filter_pytree (fun a => py_ne a (PStr "row")) ex_in)
               (filter_pytree (fun a => py_ne a (PStr "row")) ex_out) with
       | None => None
       | Some r =>
           Some (f_batched <- r ;;
                 items <- dict_items ex_in ;;
                 Ok (WrappedFunc
                       (Vmap f_batched
                             (index_in_pytree (PStr "row") (PList (map snd items)))
                             (index_in_pytree (PStr "row") ex_out))
                       ex_in ex_out))
       end.
Proof.
  pose proof (recursive_xmap_depth 3 (Func "f") ex_in ex_out)
    as (_ & _ & Hdepth & _ & Hbuilt & _ & _).
  pose proof (recursive_xmap_depth 2 (Func "f") ex_in ex_out)
    as (_ & _ & _ & _ & _ & Hstep & _).
  split; [apply Hdepth; vm_compute; lia|].
  split; [reflexivity|]. split; [reflexivity|].
  split.
  { apply (Hbuilt [("x", PList [PStr "row"; PStr "col"]);
                   ("y", PList [PStr "row"; PStr "col"])]).
    - reflexivity.
    - vm_compute. tauto.
    - vm_compute. lia. }
  destruct (Hstep eq_refl) as (_ & _ & Hless & Heq).
  split; [exact Hless | exact Heq].
Defined.

(** C3.  A named axis among the tags of the input specification that is
    nowhere among the tags of the output specification makes
    [recursive_xmap], and [xmap] with it, raise the unused-axis assertion
    naming such an axis.  The error is the outcome of the construction: no
    callable is returned, so [f] cannot have been called.  So it is for
    [{"x": ["a"]}] and [["b"]], where ["a"] is named. *)
Theorem unused_input_axis_raises
        (signature : signature_of_keys)
        (depth : nat) (f : callable) (in_axes out_axes : pytree) (a : pytree) :
  length (elimination_order out_axes) < depth ->
  In a (named_axes in_axes) ->
  ~ In a (named_axes out_axes) ->
  (exists b,
      In b (named_axes in_axes) /\ ~ In b (named_axes out_axes)
      /\ recursive_xmap depth f in_axes out_axes
         = Some (Raise (AssertionError (UnusedInputAxis b)))
      /\ xmap signature depth f in_axes out_axes
         = Some (Raise (AssertionError (UnusedInputAxis b)))
      /\ ((forall x, In x (named_axes in_axes) -> ~ In x (named_axes out_axes) -> x = a) ->
          b = a))
  /\ xmap signature 2 f (PDict [("x", PList [PStr "a"])]) (PList [PStr "b"])
     = Some (Raise (AssertionError (UnusedInputAxis (PStr "a")))).
Proof.
  intros Hdepth Hin Hout. split; [|reflexivity].
  destruct (eliminate_unused f (elimination_order out_axes) in_axes out_axes a Hin)
    as (b & Hb & Hnb & Hr).
  { unfold elimination_order. now rewrite In_distinct. }
  assert (~ In b (named_axes out_axes)) as Hnb'.
  { unfold elimination_order in Hnb. now rewrite In_distinct in Hnb. }
  exists b. split; [exact Hb|]. split; [exact Hnb'|].
  assert (recursive_xmap depth f in_axes out_axes
          = Some (Raise (AssertionError (UnusedInputAxis b)))) as Hrec.
  { rewrite recursive_xmap_unroll. apply Nat.ltb_lt in Hdepth.
    now rewrite Hdepth, Hr. }
  split; [exact Hrec|]. split; [unfold xmap; now rewrite Hrec|].
  intros Honly. now apply Honly.
Qed.

Lemma unused_input_axis_raises_witness :
  (exists b,
      In b (named_axes (PDict [("x", PList [PStr "a"])]))
      /\ ~ In b (named_axes (PList [PStr "b"]))
      /\ recursive_xmap 2 (Func "f") (PDict [("x", PList [PStr "a"])]) (PList [PStr "b"])
         = Some (Raise (AssertionError (UnusedInputAxis b)))
      /\ xmap (fun keys => Ok keys) 2 (Func "f")
              (PDict [("x", PList [PStr "a"])]) (PList [PStr "b"])
         = Some (Raise (AssertionError (UnusedInputAxis b)))
      /\ ((forall x, In x (named_axes (PDict [("x", PList [PStr "a"])])) ->
                     ~ In x (named_axes (PList [PStr "b"])) -> x = PStr "a") ->
          b = PStr "a"))
  /\ xmap (fun keys => Ok keys) 2 (Func "f")
          (PDict [("x", PList [PStr "a"])]) (PList [PStr "b"])
     = Some (Raise (AssertionError (UnusedInputAxis (PStr "a")))).
Proof.
  apply (unused_input_axis_raises (fun keys => Ok keys) 2 (Func "f") (PDict [("x", PList [PStr "a"])])
           (PList [PStr "b"]) (PStr "a")).
  - vm_compute. lia.
  - vm_compute. now left.
  - vm_compute. intros [H|[]]. discriminate.
Defined.

(** C4, as the specification has it: the callable handed back holds one
    validator, the outermost.  It fails for one named axis already: the
    callable given to [vmap] is itself a checking wrapper. *)
Lemma validation_once_counterexample :
  ~ (forall depth f in_axes out_axes c,
        recursive_xmap depth f in_axes out_axes = Some (Ok c) ->
        exists g, c = WrappedFunc g in_axes out_axes /\ validators g = validators f).
Proof.
  intros H.
  destruct (H 2 (Func "f") (PDict [("x", PList [PStr "a"])]) (PList [PStr "a"]) _ eq_refl)
    as (g & Hg & Hv).
  injection Hg as <-. discriminate Hv.
Qed.

(** C4, amended.  Every call of [recursive_xmap] wraps what it returns in a
    validator against the specifications it was given: the outermost
    validator is against the original specifications, the callable handed
    to each [vmap] is wrapped in a validator against the filtered ones, and
    the callable holds one validator more than it has named axes to
    eliminate. *)
Theorem validators_at_every_level
        (depth : nat) (f : callable) (in_axes out_axes : pytree) (c : callable) :
  recursive_xmap depth f in_axes out_axes = Some (Ok c) ->
  (exists g, c = WrappedFunc g in_axes out_axes)
  /\ validators c = validators f + S (length (elimination_order out_axes))
  /\ (forall L rest,
         elimination_order out_axes = L :: rest ->
         exists g in_axes_indices out_axes_indices,
           c = WrappedFunc
                 (Vmap (WrappedFunc g (filter_pytree (fun a => py_ne a L) in_axes)
                                      (filter_pytree (fun a => py_ne a L) out_axes))
                       in_axes_indices out_axes_indices)
                 in_axes out_axes).
Proof.
  rewrite recursive_xmap_unroll.
  destruct (Nat.ltb _ depth); [|discriminate].
  intros H. injection H as H. apply eliminate_nest in H. subst c.
  split; [|split].
  - destruct (elimination_order out_axes); simpl; eauto.
  - apply validators_nest.
  - intros L rest ->. cbn [nest].
    destruct rest; cbn [nest]; eauto.
Qed.

Lemma validators_at_every_level_witness :
  (exists g, nest (Func "f") ex_in ex_out [PStr "row"; PStr "col"]
             = WrappedFunc g ex_in ex_out)
  /\ validators (nest (Func "f") ex_in ex_out [PStr "row"; PStr "col"])
     = validators (Func "f") + S (length (elimination_order ex_out))
  /\ (forall L rest,
         elimination_order ex_out = L :: rest ->
         exists g in_axes_indices out_axes_indices,
           nest (Func "f") ex_in ex_out [PStr "row"; PStr "col"]
           = WrappedFunc
               (Vmap (WrappedFunc g (filter_pytree (fun a => py_ne a L) ex_in)
                                    (filter_pytree (fun a => py_ne a L) ex_out))
                     in_axes_indices out_axes_indices)
               ex_in ex_out).
Proof.
  apply (validators_at_every_level 3 (Func "f") ex_in ex_out). reflexivity.
Defined.

(** ** The first satisfying tag *)

(** C8, as the specification has it: for every predicate, the first tag
    that satisfies it is returned.  A predicate that accepts [None] breaks
    it: the [None] found in the first leaf is taken for "no match" and the
    search goes on to the next sibling. *)
Lemma find_first_counterexample :
  ~ (forall condition structure x rest,
        filter condition (tags structure) = x :: rest ->
        find_in_pytree condition structure = x).
Proof.
  intros H.
  specialize (H (fun _ => true) (PList [PList [PNone]; PList [PStr "a"]])
                PNone [PStr "a"] eq_refl).
  discriminate H.
Qed.

(** C8, amended.  For every predicate that rejects [None] and every tree,
    [find_in_pytree] returns the first tag that satisfies the predicate, the
    tags being taken depth first, a leaf's in order and a container's
    children in iteration order, and [None] when no tag satisfies it. *)
Theorem find_in_pytree_first
        (condition : pytree -> bool) (structure : pytree) :
  condition PNone = false ->
  (forall x rest, filter condition (tags structure) = x :: rest ->
                  find_in_pytree condition structure = x)
  /\ (filter condition (tags structure) = [] ->
      find_in_pytree condition structure = PNone).
Proof.
  intros Hc. rewrite (find_in_pytree_tags _ _ Hc).
  split; [intros x rest ->|intros ->]; reflexivity.
Qed.

Lemma find_in_pytree_first_witness :
  (forall x rest,
      filter is_str (tags (PTuple [PList [PType T_int]; PDict [("k", ex_out)]])) = x :: rest ->
      find_in_pytree is_str (PTuple [PList [PType T_int]; PDict [("k", ex_out)]]) = x)
  /\ (filter is_str (tags (PTuple [PList [PType T_int]; PDict [("k", ex_out)]])) = [] ->
      find_in_pytree is_str (PTuple [PList [PType T_int]; PDict [("k", ex_out)]]) = PNone).
Proof.
  apply (find_in_pytree_first is_str). reflexivity.
Defined.

(** ** The validator *)

Lemma entries_len_iter (data : pydata) (ds : list pydata) :
  entries data = Some ds ->
  py_len data = Ok (length ds) /\ data_iterable data = ds.
Proof.
  destruct data; simpl; try discriminate; intros H; injection H as <-;
    rewrite ?length_map; auto.
Qed.

Lemma assert_true (b : bool) (a : assertion) : b = true -> assert b a = Ok tt.
Proof. now intros ->. Qed.

Lemma assert_type_true (b : bool) (data : pydata) :
  b = true -> assert_type b data = Ok tt.
Proof. now intros ->. Qed.

Lemma assert_type_Ok (b : bool) (data : pydata) :
  assert_type b data = Ok tt <-> b = true.
Proof.
  unfold assert_type. destruct b; [tauto|].
  split; [|discriminate]. now destruct (is_single_number_tracer data).
Qed.

Lemma check_type_descriptor (data : pydata) (t : pytype) :
  check_pytree_axis data (PType t)
  = match type_family t with
    | OtherKind => assert_type (issubclass (type_of data) t) data
    | fam => assert_type (family_eqb (type_family (data_type data)) fam) data
    end.
Proof.
  simpl. unfold issubdtype. now destruct (type_family t).
Qed.

Lemma family_eqb_refl (fam : family) : family_eqb fam fam = true.
Proof. now destruct fam. Qed.

Lemma issubclass_refl (t : pytype) : issubclass t t = true.
Proof. unfold issubclass. now destruct (pytype_eq_dec t t). Qed.

Lemma check_conforms (axis : pytree) :
  forall data, conforms data axis -> check_pytree_axis data axis = Ok tt.
Proof.
  induction axis as [s|ty| | |z|l IH|l IH|kvs IH] using pytree_nested_ind;
    intros data H; inversion H; subst; try reflexivity.
  - (* type descriptor *)
    rewrite check_type_descriptor.
    match goal with Hc : type_consistent _ _ |- _ => unfold type_consistent in Hc end.
    destruct (type_family ty);
      try (apply assert_type_true; match goal with Hc : _ = _ |- _ => rewrite Hc end;
           reflexivity).
    apply assert_type_true.
    match goal with Hc : type_of _ = _ |- _ => rewrite Hc end.
    apply issubclass_refl.
  - (* rank descriptor *)
    simpl.
    match goal with He : existsb _ _ = false |- _ => rewrite He end.
    match goal with Hn : ndim _ = _ |- _ => rewrite Hn end.
    simpl. now rewrite Nat.eqb_refl.
  - (* list of sub-specifications *)
    simpl.
    match goal with He : existsb _ _ = true |- _ => rewrite He end.
    match goal with He : entries _ = _ |- _ =>
      destruct (entries_len_iter _ _ He) as [-> ->] end.
    match goal with HF : Forall2 _ _ _ |- _ =>
      rewrite (Forall2_length HF); simpl; rewrite Nat.eqb_refl; simpl;
      clear - IH HF; induction HF as [|d a ds' l' Hda _ IHF] end;
      [reflexivity|].
    inversion IH; subst.
    match goal with Ha : forall _, conforms _ a -> _ |- _ => rewrite (Ha _ Hda) end.
    simpl. now apply IHF.
  - (* tuple *)
    simpl.
    match goal with He : entries _ = _ |- _ =>
      destruct (entries_len_iter _ _ He) as [-> ->] end.
    match goal with HF : Forall2 _ _ _ |- _ =>
      rewrite (Forall2_length HF); simpl; rewrite Nat.eqb_refl; simpl;
      clear - IH HF; induction HF as [|d a ds' l' Hda _ IHF] end;
      [reflexivity|].
    inversion IH; subst.
    match goal with Ha : forall _, conforms _ a -> _ |- _ => rewrite (Ha _ Hda) end.
    simpl. now apply IHF.
  - (* dictionary *)
    simpl.
    match goal with He : entries _ = _ |- _ =>
      destruct (entries_len_iter _ _ He) as [-> ->] end.
    match goal with HF : Forall2 _ _ _ |- _ =>
      rewrite (Forall2_length HF), length_map; simpl; rewrite Nat.eqb_refl; simpl;
      clear - IH HF; revert ds HF end.
    induction IH as [|kv r Hkv _ IHr]; intros ds HF; inversion HF; subst;
      [reflexivity|].
    match goal with Hd : conforms _ (snd kv) |- _ => rewrite (Hkv _ Hd) end.
    simpl. now apply IHr.
Qed.

(** C5.  A value tree and a specification of the same composite shape, with
    rank descriptors as long as the values have dimensions and type tags
    consistent with the values, pass [check_pytree_axis]; a specification
    that is any other single value passes whatever the value. *)
Theorem check_pytree_axis_sound (data : pydata) (axis : pytree) :
  (conforms data axis -> check_pytree_axis data axis = Ok tt)
  /\ (is_container axis = false -> (forall t, axis <> PType t) ->
      check_pytree_axis data axis = Ok tt).
Proof.
  split; [apply check_conforms|].
  destruct axis; try discriminate; try reflexivity.
  intros _ H. now destruct (H t).
Qed.

Lemma check_pytree_axis_sound_witness :
  conforms ex_args ex_spec /\ check_pytree_axis ex_args ex_spec = Ok tt
  /\ check_pytree_axis (DList []) (PStr "a") = Ok tt.
Proof.
  assert (conforms ex_args ex_spec) as H.
  { eapply conforms_dict; [reflexivity|].
    repeat constructor.
    eapply conforms_tuple; [reflexivity|]. repeat constructor. }
  split; [exact H|]. split.
  - apply (proj1 (check_pytree_axis_sound ex_args ex_spec) H).
  - apply (proj2 (check_pytree_axis_sound (DList []) (PStr "a")) eq_refl).
    intros t. discriminate.
Defined.

(** C6.  Against a descriptor of the integer, floating or boolean family,
    [check_pytree_axis] accepts exactly the values whose type is of that
    family, whatever the width, and a size-one array counts with its element
    type, not with the array class.  A value of another family is turned
    down: with the type assertion when it is not a size-one array, as a
    float against the [int] descriptor is; for a size-one array the message
    of the assertion cannot be formatted and the [AttributeError] of the
    formatting is raised in its place, as for a size-one array of floats
    against the [int] descriptor. *)
Theorem check_pytree_axis_type_family (data : pydata) (t : pytype) :
  type_family t <> OtherKind ->
  (check_pytree_axis data (PType t) = Ok tt
   <-> type_family (data_type data) = type_family t)
  /\ check_pytree_axis data (PType t)
     = (if family_eqb (type_family (data_type data)) (type_family t)
        then Ok tt
        else if is_single_number_tracer data
             then Raise AttributeError
             else Raise (AssertionError TypeMismatch))
  /\ (forall d shape,
         fold_right Nat.mul 1 shape = 1 ->
         data_type (DArray d shape) = T_np d
         /\ (check_pytree_axis (DArray d shape) (PType t) = Ok tt
             <-> dtype_family d = type_family t))
  /\ (forall d z, dtype_family d = Integer ->
                  check_pytree_axis (DNp d) (PType T_int) = Ok tt
                  /\ check_pytree_axis (DInt z) (PType (T_np d)) = Ok tt)
  /\ check_pytree_axis DFloat (PType T_int) = Raise (AssertionError TypeMismatch)
  /\ check_pytree_axis (DArray float32 [1]) (PType T_int) = Raise AttributeError.
Proof.
  intros Hfam.
  assert (Heqb : forall a b, family_eqb a b = true <-> a = b).
  { intros a b. destruct a, b; simpl; split; congruence. }
  assert (forall data', check_pytree_axis data' (PType t)
            = assert_type (family_eqb (type_family (data_type data')) (type_family t))
                          data') as Hgen.
  { intros data'. rewrite check_type_descriptor.
    destruct (type_family t); try reflexivity. now destruct Hfam. }
  split; [rewrite Hgen, assert_type_Ok; apply Heqb|].
  split; [rewrite Hgen; reflexivity|].
  split; [|split; [|split; reflexivity]].
  - intros d shape Hsize.
    assert (data_type (DArray d shape) = T_np d) as Hd.
    { unfold data_type, is_single_number_tracer. now rewrite Hsize. }
    split; [exact Hd|]. rewrite Hgen, assert_type_Ok, Hd. apply Heqb.
  - intros d z Hd. rewrite !check_type_descriptor. simpl. now rewrite Hd.
Qed.

Lemma check_pytree_axis_type_family_witness :
  check_pytree_axis (DArray float32 [1; 1]) (PType T_float) = Ok tt
  /\ check_pytree_axis (DArray float32 [1; 1]) (PType T_int) = Raise AttributeError
  /\ check_pytree_axis (DArray float32 [2]) (PType T_float)
     = Raise (AssertionError TypeMismatch)
  /\ check_pytree_axis (DNp float64) (PType T_int)
     = Raise (AssertionError TypeMismatch).
Proof.
  split; [|split; [|split]].
  - apply (proj1 (check_pytree_axis_type_family
                    (DArray float32 [1; 1]) T_float ltac:(discriminate))).
    reflexivity.
  - rewrite (proj1 (proj2 (check_pytree_axis_type_family
                             (DArray float32 [1; 1]) T_int ltac:(discriminate)))).
    reflexivity.
  - rewrite (proj1 (proj2 (check_pytree_axis_type_family
                             (DArray float32 [2]) T_float ltac:(discriminate)))).
    reflexivity.
  - rewrite (proj1 (proj2 (check_pytree_axis_type_family
                             (DNp float64) T_int ltac:(discriminate)))).
    reflexivity.
Defined.

(** C7, as the specification has it: a descriptor outside the three families
    turns down every value whose type is not the declared type.  The
    [object] descriptor accepts a string. *)
Lemma exact_type_counterexample :
  ~ (forall data t,
        type_family t = OtherKind -> type_of data <> t ->
        check_pytree_axis data (PType t) = Raise (AssertionError TypeMismatch)).
Proof.
  intros H.
  specialize (H (DStr "free") T_object eq_refl ltac:(discriminate)).
  discriminate H.
Qed.

(** C7, amended.  Against a descriptor outside the integer, floating and
    boolean families, [check_pytree_axis] accepts exactly the instances of
    the declared type, those of its subclasses with them: a value whose type
    is the declared type is accepted, and a value that is no instance is
    turned down, with the type assertion when it is not a size-one array. *)
Theorem check_pytree_axis_isinstance (data : pydata) (t : pytype) :
  type_family t = OtherKind ->
  (check_pytree_axis data (PType t) = Ok tt
   <-> issubclass (type_of data) t = true)
  /\ (issubclass (type_of data) t = false ->
      is_single_number_tracer data = false ->
      check_pytree_axis data (PType t) = Raise (AssertionError TypeMismatch))
  /\ (type_of data = t -> check_pytree_axis data (PType t) = Ok tt).
Proof.
  intros Hfam. rewrite check_type_descriptor, Hfam.
  split; [apply assert_type_Ok|]. split.
  - intros Hno Hsingle. unfold assert_type. now rewrite Hno, Hsingle.
  - intros <-. apply assert_type_true, issubclass_refl.
Qed.

Lemma check_pytree_axis_isinstance_witness :
  check_pytree_axis (DArray float32 [2; 3]) (PType T_Array) = Ok tt
  /\ check_pytree_axis (DInt 3) (PType T_str) = Raise (AssertionError TypeMismatch)
  /\ check_pytree_axis (DStr "s") (PType T_str) = Ok tt.
Proof.
  destruct (check_pytree_axis_isinstance (DArray float32 [2; 3]) T_Array eq_refl)
    as (Hacc & _ & _).
  destruct (check_pytree_axis_isinstance (DInt 3) T_str eq_refl) as (_ & Hrej & _).
  destruct (check_pytree_axis_isinstance (DStr "s") T_str eq_refl) as (_ & _ & Hsame).
  split; [apply Hacc; reflexivity|].
  split; [apply Hrej; reflexivity | apply Hsame; reflexivity].
Defined.

(** ** Strings outside a list *)

Section AtPath.
Variable func : list pytree -> pytree.
Variable func_single_values : pytree -> pytree.
Hypothesis func_container : forall l, is_container (func l) = true.
Hypothesis single_not_container :
  forall v, is_container v = false -> is_container (func_single_values v) = false.

Let F := fun v => map_pytree_leaves func v func_single_values.

Lemma at_path_children (path : list nat) (i : nat) (l : list pytree) (x : pytree) :
  (forall t, at_path path t = Some x -> at_path path (F t) = Some (func_single_values x)) ->
  match nth_error l i with
  | Some child => at_path path child
  | None => None
  end = Some x ->
  match nth_error (map F l) i with
  | Some child => at_path path child
  | None => None
  end = Some (func_single_values x).
Proof.
  intros IH. rewrite nth_error_map.
  destruct (nth_error l i) as [child|]; simpl; [apply IH | discriminate].
Qed.

(** A single value reached through containers is where it was after the
    map, transformed as a single value. *)
Lemma at_path_map_pytree_leaves (path : list nat) :
  forall t x,
    is_container x = false ->
    at_path path t = Some x ->
    at_path path (F t) = Some (func_single_values x).
Proof.
  induction path as [|i rest IH]; intros t x Hx.
  - simpl. intros H. injection H as ->. unfold F.
    destruct x; try discriminate; reflexivity.
  - cbn [at_path]. destruct (is_pytree_leaf t) eqn:El; [discriminate|].
    destruct t; try (simpl; destruct i; discriminate).
    + simpl in El. apply negb_false_iff in El.
      unfold F at 1 2. simpl. rewrite El. fold F.
      simpl. rewrite (existsb_map_leaves func func_single_values) by assumption.
      rewrite El. simpl.
      apply at_path_children. intros t'. now apply IH.
    + unfold F at 1 2. simpl. fold F.
      apply at_path_children. intros t'. now apply IH.
    + unfold F at 1 2. simpl. fold F.
      rewrite map_map. simpl.
      change (map (fun x0 : string * pytree =>
                     map_pytree_leaves func (snd x0) func_single_values) kvs)
        with (map (fun x0 => F (snd x0)) kvs).
      rewrite <- (map_map snd F).
      apply at_path_children. intros t'. now apply IH.
Qed.
End AtPath.

Lemma at_path_filter_pytree (c : pytree -> bool) (path : list nat) (t : pytree) (s : string) :
  at_path path t = Some (PStr s) ->
  at_path path (filter_pytree c t) = Some (PStr s).
Proof.
  intros H. unfold filter_pytree.
  apply (at_path_map_pytree_leaves
           (fun leaf => PList (filter c leaf)) (fun v => v)
           (fun _ => eq_refl) (fun _ Hv => Hv) path t (PStr s) eq_refl H).
Qed.

(** Whatever the two transforms, the single value is found transformed at
    the same place of the result. *)
Lemma subtree_map_pytree_leaves (func : list pytree -> pytree)
      (func_single_values : pytree -> pytree) (path : list nat) :
  forall t x,
    is_container x = false ->
    at_path path t = Some x ->
    subtree path (map_pytree_leaves func t func_single_values)
    = Some (func_single_values x).
Proof.
  induction path as [|i rest IH]; intros t x Hx.
  - simpl. intros H. injection H as ->.
    destruct x; try discriminate; reflexivity.
  - cbn [at_path subtree]. destruct (is_pytree_leaf t) eqn:El; [discriminate|].
    destruct t; try (simpl; destruct i; discriminate).
    + simpl in El. simpl map_pytree_leaves. rewrite El. simpl.
      rewrite nth_error_map.
      destruct (nth_error l i) as [child|]; simpl; [now apply IH | discriminate].
    + simpl. rewrite nth_error_map.
      destruct (nth_error l i) as [child|]; simpl; [now apply IH | discriminate].
    + simpl. rewrite map_map. simpl. rewrite !nth_error_map.
      destruct (nth_error kvs i) as [child|]; simpl; [now apply IH | discriminate].
Qed.

Lemma subtree_index_in_pytree (value : pytree) (path : list nat) (t : pytree) (s : string) :
  at_path path t = Some (PStr s) ->
  subtree path (index_in_pytree value t) = Some PNone.
Proof.
  intros H. unfold index_in_pytree.
  apply (subtree_map_pytree_leaves _ (fun _ => PNone) path t (PStr s) eq_refl H).
Qed.

(** What [find_in_pytree] returns, when it is not [None], is a tag. *)
Lemma find_in_pytree_In (c : pytree -> bool) (t : pytree) :
  is_None (find_in_pytree c t) = false -> In (find_in_pytree c t) (tags t).
Proof.
  assert (Hfirst : forall l, is_None (first_value c l) = false -> In (first_value c l) l).
  { induction l as [|x l IH]; simpl; [discriminate|].
    destruct (c x); auto. }
  assert (Hloop : forall l : list pytree,
             Forall (fun t => is_None (find_in_pytree c t) = false ->
                              In (find_in_pytree c t) (tags t)) l ->
             let r := (fix loop (data : list pytree) : pytree :=
                         match data with
                         | [] => PNone
                         | element :: rest =>
                             let result := find_in_pytree c element in
                             if negb (is_None result) then result else loop rest
                         end) l in
             is_None r = false -> In r (flat_map tags l)).
  { induction 1 as [|x r Hx _ IHr]; cbv zeta in *; [discriminate|].
    simpl. destruct (is_None (find_in_pytree c x)) eqn:E; simpl; intros H.
    - apply in_or_app. right. now apply IHr.
    - apply in_or_app. left. now apply Hx. }
  induction t as [s|ty| | |z|l IH|l IH|kvs IH] using pytree_nested_ind;
    try discriminate.
  - simpl. destruct (negb (existsb is_container l)).
    + apply Hfirst.
    + now apply Hloop.
  - simpl. now apply Hloop.
  - simpl. induction IH as [|x r Hx _ IHr]; [discriminate|].
    simpl. destruct (is_None (find_in_pytree c (snd x))) eqn:E; simpl; intros H.
    + apply in_or_app. right. now apply IHr.
    + apply in_or_app. left. now apply Hx.
Qed.

(** C10, as the specification has it: a string outside a list is a single
    value for [index_in_pytree], so that [recursive_xmap] hands [vmap] the
    absent marker at its place.  For an input dictionary whose values are
    all single values it does not: the list of the values is a leaf, and the
    string is found in it as a tag. *)
Lemma bare_string_counterexample :
  ~ (forall depth f kvs out_axes c L rest path s,
        recursive_xmap depth f (PDict kvs) out_axes = Some (Ok c) ->
        elimination_order out_axes = L :: rest ->
        at_path path (PDict kvs) = Some (PStr s) ->
        exists g in_axes_indices out_axes_indices,
          c = WrappedFunc (Vmap g in_axes_indices out_axes_indices) (PDict kvs) out_axes
          /\ subtree path in_axes_indices = Some PNone).
Proof.
  intros H.
  destruct (H 2 (Func "f") [("x", PStr "a")] (PList [PStr "a"]) _
              (PStr "a") [] [0] "a" eq_refl eq_refl eq_refl)
    as (g & ia & oa & Hc & Hp).
  injection Hc as _ <- _. discriminate Hp.
Qed.

(** C10, amended.  A string that is not an element of a list is neither a
    leaf nor a container.  [find_in_pytree] does not search it and returns
    tags only, [filter_pytree] leaves it where it is, [index_in_pytree]
    puts [None] at its place and [check_pytree_axis] accepts any value
    against it.  [recursive_xmap] eliminates tags only, so never a label
    met outside a list alone, and hands [vmap] the absent marker at the
    place of such a string of the outputs, and of the inputs when some
    argument specification is a container. *)
Theorem bare_string_is_single_value (s : string) :
  (is_pytree_leaf (PStr s) = false /\ is_container (PStr s) = false)
  /\ (forall condition, find_in_pytree condition (PStr s) = PNone)
  /\ (forall condition t,
         ~ In (PStr s) (tags t) -> find_in_pytree condition t <> PStr s)
  /\ (forall condition path t,
         at_path path t = Some (PStr s) ->
         at_path path (filter_pytree condition t) = Some (PStr s))
  /\ (forall value path t,
         at_path path t = Some (PStr s) ->
         subtree path (index_in_pytree value t) = Some PNone)
  /\ (forall data, check_pytree_axis data (PStr s) = Ok tt)
  /\ (forall out_axes,
         ~ In (PStr s) (tags out_axes) -> ~ In (PStr s) (elimination_order out_axes))
  /\ (forall depth f kvs out_axes c L rest path,
         recursive_xmap depth f (PDict kvs) out_axes = Some (Ok c) ->
         elimination_order out_axes = L :: rest ->
         exists g in_axes_indices out_axes_indices,
           c = WrappedFunc (Vmap g in_axes_indices out_axes_indices) (PDict kvs) out_axes
           /\ (at_path path out_axes = Some (PStr s) ->
               subtree path out_axes_indices = Some PNone)
           /\ (existsb is_container (map snd kvs) = true ->
               at_path path (PDict kvs) = Some (PStr s) ->
               subtree path in_axes_indices = Some PNone)).
Proof.
  split; [now split|]. split; [reflexivity|]. split.
  { intros c t Hno Hf. apply Hno. rewrite <- Hf. apply find_in_pytree_In.
    now rewrite Hf. }
  split; [intros; now apply at_path_filter_pytree|].
  split; [intros; now apply subtree_index_in_pytree with (s := s)|].
  split; [reflexivity|]. split.
  { intros out_axes Hno H. apply Hno. unfold elimination_order in H.
    rewrite In_distinct in H. unfold named_axes in H. now apply filter_In in H. }
  intros depth f kvs out_axes c L rest path Hrec Horder.
  rewrite recursive_xmap_unroll in Hrec.
  destruct (Nat.ltb _ depth); [|discriminate].
  injection Hrec as Hrec. apply eliminate_nest in Hrec. subst c.
  rewrite Horder. cbn [nest make_iterable].
  do 3 eexists. split; [reflexivity|]. split.
  - intros H. now apply subtree_index_in_pytree with (s := s).
  - intros Hc H. apply subtree_index_in_pytree with (s := s).
    destruct path as [|i path]; [discriminate|].
    cbn [at_path] in *. simpl is_pytree_leaf in *. now rewrite Hc.
Qed.

Lemma bare_string_is_single_value_witness :
  at_path [1] ex_bare = Some (PStr "a")
  /\ at_path [1] (filter_pytree (fun a => py_ne a (PStr "a")) ex_bare) = Some (PStr "a")
  /\ subtree [1] (index_in_pytree (PStr "a") ex_bare) = Some PNone
  /\ find_in_pytree is_str ex_bare <> PStr "a".
Proof.
  pose proof (bare_string_is_single_value "a") as (_ & _ & Hfind & Hfilter & Hindex & _).
  split; [reflexivity|]. split; [now apply Hfilter|]. split; [now apply Hindex|].
  apply Hfind. vm_compute. intros [H|[]]. discriminate.
Defined.

(** ** Labels that share no leaf *)

Lemma list_index_absent (value : pytree) (leaf : list pytree) :
  ~ In value leaf -> list_index value leaf = None.
Proof.
  induction leaf as [|x leaf IH]; simpl; [reflexivity|].
  intros H. destruct (py_eq x value) eqn:E.
  - apply py_eq_true in E. tauto.
  - rewrite IH; [reflexivity | tauto].
Qed.

Lemma filter_py_ne_absent (b : pytree) (leaf : list pytree) :
  ~ In b leaf -> filter (fun a => py_ne a b) leaf = leaf.
Proof.
  induction leaf as [|x leaf IH]; simpl; [reflexivity|].
  intros H. rewrite py_ne_true by (intros ->; tauto).
  rewrite IH; [reflexivity | tauto].
Qed.

Lemma list_index_filter_disjoint (a b : pytree) (leaf : list pytree) :
  (In a leaf -> ~ In b leaf) ->
  list_index a (filter (fun x => py_ne x b) leaf) = list_index a leaf.
Proof.
  intros H.
  destruct (list_index a leaf) as [i|] eqn:E.
  - rewrite filter_py_ne_absent; [exact E|].
    apply H. clear H. revert i E.
    induction leaf as [|x leaf IH]; simpl; [discriminate|].
    intros i. destruct (py_eq x a) eqn:Ex.
    + intros _. left. now apply py_eq_true.
    + destruct (list_index a leaf); [|discriminate]. intros _. right. eauto.
  - clear H. induction leaf as [|x leaf IH]; simpl in *; [reflexivity|].
    destruct (py_eq x a) eqn:Ex; [discriminate|].
    destruct (list_index a leaf); [discriminate|].
    destruct (py_ne x b); simpl; rewrite ?Ex, IH; reflexivity.
Qed.

(** Taking a label out of a tree does not move another label that shares no
    leaf with it: the positions that [vmap] is given for either label do not
    depend on which of the two is eliminated first. *)
Lemma index_in_pytree_filter_disjoint (a b : pytree) (t : pytree) :
  (forall leaf, In leaf (leaves t) -> In a leaf -> ~ In b leaf) ->
  index_in_pytree a (filter_pytree (fun x => py_ne x b) t) = index_in_pytree a t.
Proof.
  induction t as [s|ty| | |z|l IH|l IH|kvs IH] using pytree_nested_ind;
    try reflexivity; intros H.
  - destruct (existsb is_container l) eqn:E.
    + rewrite filter_pytree_list by exact E.
      unfold index_in_pytree at 1 2. simpl.
      rewrite existsb_filter_pytree, E. simpl. f_equal.
      simpl in H. rewrite E in H. simpl in H.
      rewrite map_map. clear E.
      induction IH as [|x r Hx _ IHr]; simpl; [reflexivity|].
      simpl in H. f_equal.
      * apply Hx. intros leaf Hl. apply H, in_or_app. now left.
      * apply IHr. intros leaf Hl. apply H, in_or_app. now right.
    + rewrite filter_pytree_leaf by exact E.
      unfold index_in_pytree. simpl.
      rewrite E, (existsb_filter_false _ _ _ E). simpl.
      rewrite list_index_filter_disjoint; [reflexivity|].
      apply H. simpl. rewrite E. now left.
  - unfold filter_pytree, index_in_pytree. simpl. f_equal.
    rewrite map_map. simpl in H.
    induction IH as [|x r Hx _ IHr]; simpl; [reflexivity|].
    simpl in H. f_equal.
    + apply Hx. intros leaf Hl. apply H, in_or_app. now left.
    + apply IHr. intros leaf Hl. apply H, in_or_app. now right.
  - unfold filter_pytree, index_in_pytree. simpl. f_equal.
    rewrite map_map. simpl in H.
    induction IH as [|x r Hx _ IHr]; simpl; [reflexivity|].
    simpl in H. f_equal.
    + f_equal. apply Hx. intros leaf Hl. apply H, in_or_app. now left.
    + apply IHr. intros leaf Hl. apply H, in_or_app. now right.
Qed.

(** * Further properties of the helpers *)

(** ** Filtering *)

Lemma filter_filter_andb {A : Type} (p q : A -> bool) (l : list A) :
  filter p (filter q l) = filter (fun a => q a && p a) l.
Proof.
  induction l as [|x l IH]; simpl; [reflexivity|].
  destruct (q x); simpl; [destruct (p x)|]; now rewrite IH.
Qed.

Lemma filter_all_true {A : Type} (p : A -> bool) (l : list A) :
  (forall a, In a l -> p a = true) -> filter p l = l.
Proof.
  induction l as [|x l IH]; simpl; [reflexivity|].
  intros H. rewrite (H x) by now left. f_equal. apply IH. auto.
Qed.

Lemma map_ext_Forall {A B : Type} (f g : A -> B) (l : list A) :
  Forall (fun x => f x = g x) l -> map f l = map g l.
Proof. induction 1; simpl; congruence. Qed.

(** [filter_pytree] filters every leaf on its own and keeps the leaves in
    their number and order: no leaf is dropped, not even an emptied one. *)
Theorem filter_pytree_leafwise (condition : pytree -> bool) (structure : pytree) :
  leaves (filter_pytree condition structure)
  = map (filter condition) (leaves structure).
Proof.
  induction structure as [s|ty| | |z|l IH|l IH|kvs IH] using pytree_nested_ind;
    try reflexivity.
  - destruct (existsb is_container l) eqn:E.
    + rewrite filter_pytree_list by exact E.
      simpl. rewrite existsb_filter_pytree, E. simpl. clear E.
      induction IH as [|x r Hx _ IHr]; simpl; [reflexivity|].
      now rewrite map_app, Hx, IHr.
    + rewrite filter_pytree_leaf by exact E.
      simpl. rewrite E, (existsb_filter_false _ _ _ E). reflexivity.
  - unfold filter_pytree. simpl. fold (filter_pytree condition).
    induction IH as [|x r Hx _ IHr]; simpl; [reflexivity|].
    now rewrite map_app, Hx, IHr.
  - unfold filter_pytree. simpl. fold (filter_pytree condition).
    induction IH as [|x r Hx _ IHr]; simpl; [reflexivity|].
    unfold filter_pytree in Hx. now rewrite map_app, Hx, IHr.
Qed.

(** Filtering twice is filtering once with both conditions; in particular
    filtering again with the same condition changes nothing. *)
Theorem filter_pytree_twice (c1 c2 : pytree -> bool) (structure : pytree) :
  filter_pytree c1 (filter_pytree c2 structure)
  = filter_pytree (fun a => c2 a && c1 a) structure
  /\ filter_pytree c1 (filter_pytree c1 structure) = filter_pytree c1 structure.
Proof.
  assert (Hgen : forall p q t,
             filter_pytree p (filter_pytree q t)
             = filter_pytree (fun a => q a && p a) t).
  { intros p q t.
    induction t as [s|ty| | |z|l IH|l IH|kvs IH] using pytree_nested_ind;
      try reflexivity.
    - destruct (existsb is_container l) eqn:E.
      + rewrite !(filter_pytree_list _ l) by exact E.
        rewrite filter_pytree_list by (now rewrite existsb_filter_pytree).
        rewrite map_map. f_equal. now apply map_ext_Forall.
      + rewrite !(filter_pytree_leaf _ l) by exact E.
        rewrite filter_pytree_leaf by (now apply existsb_filter_false).
        now rewrite filter_filter_andb.
    - unfold filter_pytree. simpl. rewrite map_map. f_equal.
      now apply map_ext_Forall.
    - unfold filter_pytree. simpl. rewrite map_map. f_equal. simpl.
      apply map_ext_Forall.
      apply Forall_impl with (2 := IH). intros kv H.
      unfold filter_pytree in H. now rewrite H. }
  split; [apply Hgen|].
  rewrite Hgen.
  induction structure as [s|ty| | |z|l IH|l IH|kvs IH] using pytree_nested_ind;
    try reflexivity.
  - destruct (existsb is_container l) eqn:E.
    + rewrite !(filter_pytree_list _ l) by exact E.
      f_equal. now apply map_ext_Forall.
    + rewrite !(filter_pytree_leaf _ l) by exact E.
      now rewrite <- filter_filter_andb, filter_idem.
  - unfold filter_pytree. simpl. f_equal. now apply map_ext_Forall.
  - unfold filter_pytree. simpl. f_equal. apply map_ext_Forall.
    apply Forall_impl with (2 := IH). intros kv H.
    unfold filter_pytree in H. now rewrite H.
Qed.

(** A condition that every tag of the tree satisfies leaves the tree as it
    is: taking out a label that the tree does not hold changes nothing. *)
Theorem filter_pytree_unchanged (condition : pytree -> bool) (structure : pytree) :
  (forall a, In a (tags structure) -> condition a = true) ->
  filter_pytree condition structure = structure.
Proof.
  induction structure as [s|ty| | |z|l IH|l IH|kvs IH] using pytree_nested_ind;
    try reflexivity; intros H.
  - destruct (existsb is_container l) eqn:E.
    + rewrite filter_pytree_list by exact E. f_equal.
      simpl in H. rewrite E in H. simpl in H. clear E.
      induction IH as [|x r Hx _ IHr]; simpl; [reflexivity|].
      simpl in H. f_equal.
      * apply Hx. intros a Ha. apply H, in_or_app. now left.
      * apply IHr. intros a Ha. apply H, in_or_app. now right.
    + rewrite filter_pytree_leaf by exact E. f_equal.
      apply filter_all_true. simpl in H. now rewrite E in H.
  - unfold filter_pytree. simpl. fold (filter_pytree condition). f_equal.
    simpl in H.
    induction IH as [|x r Hx _ IHr]; simpl; [reflexivity|].
    simpl in H. f_equal.
    + apply Hx. intros a Ha. apply H, in_or_app. now left.
    + apply IHr. intros a Ha. apply H, in_or_app. now right.
  - unfold filter_pytree. simpl. f_equal. simpl in H.
    induction IH as [|x r Hx _ IHr]; simpl; [reflexivity|].
    simpl in H. f_equal.
    + destruct x as [k v]. simpl in *. f_equal.
      apply Hx. intros a Ha. apply H, in_or_app. now left.
    + apply IHr. intros a Ha. apply H, in_or_app. now right.
Qed.

Lemma filter_pytree_unchanged_witness :
  filter_pytree (fun a => py_ne a (PStr "batch")) ex_in = ex_in.
Proof.
  apply (filter_pytree_unchanged (fun a => py_ne a (PStr "batch")) ex_in).
  vm_compute. intros a [<-|[<-|[<-|[<-|[]]]]]; reflexivity.
Defined.

(** ** Indexing *)

Lemma list_index_first (value : pytree) (leaf : list pytree) :
  existsb is_container leaf = false ->
  In value leaf ->
  exists i,
    list_index value leaf = Some (Z.of_nat i)
    /\ nth_error leaf i = Some value
    /\ forall j, j < i -> nth_error leaf j <> Some value.
Proof.
  induction leaf as [|x leaf IH]; simpl; [intros _ []|].
  intros Hc Hin. apply orb_false_iff in Hc as [Hx Hc].
  destruct (py_eq x value) eqn:E.
  - apply py_eq_true in E. subst x. exists 0.
    split; [reflexivity|]. split; [reflexivity|]. intros j Hj. lia.
  - assert (In value leaf) as Hin'.
    { destruct Hin as [<-|H]; [|exact H]. now rewrite py_eq_refl in E. }
    destruct (IH Hc Hin') as (i & Hi & Hnth & Hmin).
    exists (S i). rewrite Hi. simpl.
    split; [f_equal; lia|]. split; [exact Hnth|].
    intros [|j] Hj; simpl.
    + intros H. injection H as ->. now rewrite py_eq_refl in E.
    + apply Hmin. lia.
Qed.

(** On a leaf, [index_in_pytree] gives the first position at which the value
    stands, counted from zero, and [None] exactly when the value is not in
    the leaf. *)
Theorem index_in_pytree_leaf (value : pytree) (leaf : list pytree) :
  existsb is_container leaf = false ->
  (In value leaf ->
   exists i,
     index_in_pytree value (PList leaf) = PInt (Z.of_nat i)
     /\ i < length leaf
     /\ nth_error leaf i = Some value
     /\ forall j, j < i -> nth_error leaf j <> Some value)
  /\ (~ In value leaf -> index_in_pytree value (PList leaf) = PNone).
Proof.
  intros Hc. unfold index_in_pytree. simpl. rewrite Hc. simpl. split.
  - intros Hin. destruct (list_index_first value leaf Hc Hin) as (i & Hi & Hnth & Hmin).
    exists i. rewrite Hi. split; [reflexivity|]. split; [|now split].
    apply nth_error_Some. congruence.
  - intros Hno. now rewrite list_index_absent.
Qed.

Lemma index_in_pytree_leaf_witness :
  (In (PStr "col") [PStr "row"; PType T_int; PStr "col"; PStr "col"] ->
   exists i,
     index_in_pytree (PStr "col") (PList [PStr "row"; PType T_int; PStr "col"; PStr "col"])
     = PInt (Z.of_nat i)
     /\ i < length [PStr "row"; PType T_int; PStr "col"; PStr "col"]
     /\ nth_error [PStr "row"; PType T_int; PStr "col"; PStr "col"] i = Some (PStr "col")
     /\ forall j, j < i ->
                  nth_error [PStr "row"; PType T_int; PStr "col"; PStr "col"] j
                  <> Some (PStr "col"))
  /\ (~ In (PStr "col") [PStr "row"; PType T_int; PStr "col"; PStr "col"] ->
      index_in_pytree (PStr "col") (PList [PStr "row"; PType T_int; PStr "col"; PStr "col"])
      = PNone).
Proof.
  apply (index_in_pytree_leaf (PStr "col")
           [PStr "row"; PType T_int; PStr "col"; PStr "col"]).
  reflexivity.
Defined.

(** A value that is no tag of the tree is indexed nowhere: every leaf and
    every single value of the tree becomes [None], the containers stay. *)
Theorem index_in_pytree_absent (value : pytree) (structure : pytree) :
  ~ In value (tags structure) ->
  index_in_pytree value structure
  = map_pytree_leaves (fun _ => PNone) structure (fun _ => PNone).
Proof.
  induction structure as [s|ty| | |z|l IH|l IH|kvs IH] using pytree_nested_ind;
    try reflexivity; intros H.
  - unfold index_in_pytree. simpl in *.
    destruct (existsb is_container l) eqn:E; simpl in *.
    + f_equal. clear E.
      induction IH as [|x r Hx _ IHr]; simpl; [reflexivity|].
      simpl in H. f_equal.
      * apply Hx. intros Ha. apply H, in_or_app. now left.
      * apply IHr. intros Ha. apply H, in_or_app. now right.
    + now rewrite list_index_absent.
  - unfold index_in_pytree. simpl in *. f_equal.
    induction IH as [|x r Hx _ IHr]; simpl; [reflexivity|].
    simpl in H. f_equal.
    + apply Hx. intros Ha. apply H, in_or_app. now left.
    + apply IHr. intros Ha. apply H, in_or_app. now right.
  - unfold index_in_pytree. simpl in *. f_equal.
    induction IH as [|x r Hx _ IHr]; simpl; [reflexivity|].
    simpl in H. f_equal.
    + f_equal. apply Hx. intros Ha. apply H, in_or_app. now left.
    + apply IHr. intros Ha. apply H, in_or_app. now right.
Qed.

Lemma index_in_pytree_absent_witness :
  index_in_pytree (PStr "batch") ex_in
  = PDict [("x", PNone); ("y", PNone)].
Proof.
  rewrite (index_in_pytree_absent (PStr "batch") ex_in).
  - reflexivity.
  - vm_compute. intros [H|[H|[H|[H|[]]]]]; discriminate.
Defined.

Lemma index_in_pytree_filter_disjoint_witness :
  index_in_pytree (PStr "a")
    (filter_pytree (fun x => py_ne x (PStr "b"))
                   (PTuple [PList [PStr "a"; PType T_int]; PList [PStr "b"]]))
  = PTuple [PInt 0; PNone].
Proof.
  rewrite (index_in_pytree_filter_disjoint (PStr "a") (PStr "b")
             (PTuple [PList [PStr "a"; PType T_int]; PList [PStr "b"]])).
  - reflexivity.
  - vm_compute. intros leaf [<-|[<-|[]]] Ha Hb.
    + destruct Hb as [H|[H|[]]]; discriminate.
    + destruct Ha as [H|[]]; discriminate.
Defined.

Lemma list_index_nonneg (value : pytree) (leaf : list pytree) (i : Z) :
  list_index value leaf = Some i -> (0 <= i)%Z.
Proof.
  revert i. induction leaf as [|x leaf IH]; simpl; [discriminate|].
  intros i. destruct (py_eq x value); [intros H; injection H as <-; lia|].
  destruct (list_index value leaf) as [k|]; [|discriminate].
  simpl. intros H. injection H as <-. specialize (IH k eq_refl). lia.
Qed.

Lemma list_index_filter_shift (a b : pytree) (leaf : list pytree) :
  a <> b ->
  forall i,
    list_index a leaf = Some i ->
    list_index a (filter (fun x => py_ne x b) leaf)
    = Some (i - Z.of_nat (length (filter (fun x => py_eq x b)
                                         (firstn (Z.to_nat i) leaf))))%Z.
Proof.
  intros Hab. induction leaf as [|x leaf IH]; simpl; [discriminate|].
  intros i. destruct (py_eq x a) eqn:Ea.
  - intros H. injection H as <-.
    assert (x <> b) as Hxb by (apply py_eq_true in Ea; congruence).
    rewrite (py_ne_true x b Hxb). simpl. now rewrite Ea.
  - destruct (list_index a leaf) as [k|] eqn:Ek; [|discriminate].
    simpl. intros H. injection H as <-.
    pose proof (list_index_nonneg _ _ _ Ek) as Hk.
    rewrite Z2Nat.inj_succ by exact Hk. simpl.
    specialize (IH k eq_refl). unfold py_ne at 1.
    destruct (py_eq x b); simpl.
    + rewrite IH. f_equal. lia.
    + rewrite Ea, IH. simpl. f_equal. lia.
Qed.

(** Once a label has been taken out of a leaf, another value of the leaf is
    found as many places earlier as the label stood before it: the position
    handed to an inner [vmap] counts the axes that are left. *)
Theorem index_in_pytree_after_filter (a b : pytree) (leaf : list pytree) (i : Z) :
  existsb is_container leaf = false ->
  a <> b ->
  index_in_pytree a (PList leaf) = PInt i ->
  index_in_pytree a (filter_pytree (fun x => py_ne x b) (PList leaf))
  = PInt (i - Z.of_nat (length (filter (fun x => py_eq x b)
                                       (firstn (Z.to_nat i) leaf))))%Z.
Proof.
  intros Hc Hab. rewrite filter_pytree_leaf by exact Hc.
  unfold index_in_pytree. simpl.
  rewrite Hc, (existsb_filter_false _ _ _ Hc). simpl.
  destruct (list_index a leaf) as [k|] eqn:E; [|discriminate].
  intros H. injection H as ->.
  now rewrite (list_index_filter_shift a b leaf Hab i E).
Qed.

Lemma index_in_pytree_after_filter_witness :
  index_in_pytree (PStr "a")
    (filter_pytree (fun x => py_ne x (PStr "b"))
                   (PList [PStr "b"; PType T_int; PStr "a"; PStr "b"]))
  = PInt 1.
Proof.
  rewrite (index_in_pytree_after_filter (PStr "a") (PStr "b")
             [PStr "b"; PType T_int; PStr "a"; PStr "b"] 2).
  - reflexivity.
  - reflexivity.
  - discriminate.
  - reflexivity.
Defined.

(** ** Searching *)

Lemma first_value_sound (c : pytree -> bool) (l : list pytree) :
  is_None (first_value c l) = false -> c (first_value c l) = true.
Proof.
  induction l as [|x l IH]; simpl; [discriminate|].
  destruct (c x) eqn:E; auto.
Qed.

Lemma find_in_pytree_satisfies (c : pytree -> bool) (t : pytree) :
  is_None (find_in_pytree c t) = false -> c (find_in_pytree c t) = true.
Proof.
  assert (Hloop : forall l : list pytree,
             Forall (fun t => is_None (find_in_pytree c t) = false ->
                              c (find_in_pytree c t) = true) l ->
             let r := (fix loop (data : list pytree) : pytree :=
                         match data with
                         | [] => PNone
                         | element :: rest =>
                             let result := find_in_pytree c element in
                             if negb (is_None result) then result else loop rest
                         end) l in
             is_None r = false -> c r = true).
  { induction 1 as [|x r Hx _ IHr]; cbv zeta in *; [discriminate|].
    simpl. destruct (is_None (find_in_pytree c x)) eqn:E; simpl; auto. }
  induction t as [s|ty| | |z|l IH|l IH|kvs IH] using pytree_nested_ind;
    try discriminate.
  - simpl. destruct (negb (existsb is_container l)).
    + apply first_value_sound.
    + now apply Hloop.
  - simpl. now apply Hloop.
  - simpl. induction IH as [|x r Hx _ IHr]; [discriminate|].
    simpl. destruct (is_None (find_in_pytree c (snd x))) eqn:E; simpl; auto.
Qed.

(** Whatever the condition, what [find_in_pytree] returns is [None] or a tag
    of the tree that satisfies the condition; and when the condition turns
    [None] down, [None] is returned only if no tag satisfies it. *)
Theorem find_in_pytree_sound (condition : pytree -> bool) (structure : pytree) :
  (find_in_pytree condition structure = PNone
   \/ (In (find_in_pytree condition structure) (tags structure)
       /\ condition (find_in_pytree condition structure) = true))
  /\ (condition PNone = false ->
      find_in_pytree condition structure = PNone ->
      forall a, In a (tags structure) -> condition a = false).
Proof.
  split.
  - destruct (is_None (find_in_pytree condition structure)) eqn:E.
    + left. now destruct (find_in_pytree condition structure).
    + right. split; [now apply find_in_pytree_In | now apply find_in_pytree_satisfies].
  - intros Hc Hf a Ha.
    rewrite (find_in_pytree_tags _ _ Hc) in Hf.
    assert (filter condition (tags structure) = []) as Hnil.
    { apply hd_filter_None; [exact Hc | now rewrite Hf]. }
    destruct (condition a) eqn:E; [|reflexivity].
    assert (In a (filter condition (tags structure))) as H
        by (apply filter_In; now split).
    rewrite Hnil in H. destruct H.
Qed.

Lemma find_in_pytree_sound_witness :
  find_in_pytree is_str (PTuple [PList [PType T_int; PNone]; PStr "bare"]) = PNone
  /\ (forall a, In a (tags (PTuple [PList [PType T_int; PNone]; PStr "bare"])) ->
                is_str a = false).
Proof.
  split; [reflexivity|].
  apply (proj2 (find_in_pytree_sound is_str
                  (PTuple [PList [PType T_int; PNone]; PStr "bare"]))).
  - reflexivity.
  - reflexivity.
Defined.

(** ** Validation of containers *)

Lemma length_list_ascii_of_string (s : string) :
  length (list_ascii_of_string s) = String.length s.
Proof. induction s; simpl; congruence. Qed.

Lemma py_len_data_iterable (data : pydata) (n : nat) :
  py_len data = Ok n -> length (data_iterable data) = n.
Proof.
  destruct data; simpl; try discriminate; intros H.
  - injection H as <-. now rewrite length_map, length_list_ascii_of_string.
  - destruct shape as [|m shape]; [discriminate|].
    injection H as <-. apply repeat_length.
  - now injection H as <-.
  - now injection H as <-.
  - injection H as <-. apply length_map.
Qed.

Lemma check_list_as_tuple (data : pydata) (l : list pytree) :
  existsb is_container l = true ->
  check_pytree_axis data (PList l) = check_pytree_axis data (PTuple l).
Proof. intros H. simpl. now rewrite H. Qed.

Lemma check_dict_as_tuple (data : pydata) (kvs : list (string * pytree)) :
  check_pytree_axis data (PDict kvs) = check_pytree_axis data (PTuple (map snd kvs)).
Proof.
  simpl. rewrite length_map.
  destruct (py_len data) as [n|e]; simpl; [|reflexivity].
  destruct (assert (Nat.eqb (length kvs) n) ElementsMismatch); simpl; [|reflexivity].
  generalize (data_iterable data).
  induction kvs as [|kv kvs IH]; intros [|d ds]; simpl; try reflexivity.
  destruct (check_pytree_axis d (snd kv)); simpl; [apply IH | reflexivity].
Qed.

Lemma check_tuple_entries (ds : list pydata) (l : list pytree) :
  length ds = length l ->
  (fix loop (ds : list pydata) (axes : list pytree) {struct axes} : result unit :=
     match ds, axes with
     | d :: ds', a :: axes' =>
         _ <- check_pytree_axis d a ;; loop ds' axes'
     | _, _ => Ok tt
     end) ds l = Ok tt
  <-> Forall2 (fun d a => check_pytree_axis d a = Ok tt) ds l.
Proof.
  revert ds. induction l as [|a l IH]; intros [|d ds] Hlen; try discriminate.
  - split; [constructor | reflexivity].
  - simpl in Hlen. injection Hlen as Hlen. specialize (IH ds Hlen).
    split.
    + intros H. destruct (check_pytree_axis d a) as [[]|e] eqn:E; [|discriminate].
      constructor; [exact E | now apply IH].
    + intros H. inversion H as [|? ? ? ? Hd Hr]; subst.
      rewrite Hd. simpl. now apply IH.
Qed.

Lemma check_tuple_iff (data : pydata) (l : list pytree) :
  check_pytree_axis data (PTuple l) = Ok tt
  <-> py_len data = Ok (length l)
      /\ Forall2 (fun d a => check_pytree_axis d a = Ok tt) (data_iterable data) l.
Proof.
  simpl. destruct (py_len data) as [n|e] eqn:En; simpl.
  - destruct (Nat.eqb (length l) n) eqn:E; simpl.
    + apply Nat.eqb_eq in E. subst n.
      rewrite (check_tuple_entries _ _ (py_len_data_iterable _ _ En)).
      tauto.
    + apply Nat.eqb_neq in E. split; [discriminate|].
      intros [H _]. injection H as H. congruence.
  - split; [discriminate | intros [H _]; discriminate].
Qed.

(** A container of specifications accepts a value exactly when the value has
    as many entries as the container and every entry passes against the
    specification of the same rank; so it is for tuples, for lists that are
    not leaves and for dictionaries. *)
Theorem check_pytree_axis_container (data : pydata) (axis : pytree) :
  is_container axis = true ->
  is_pytree_leaf axis = false ->
  (check_pytree_axis data axis = Ok tt
   <-> py_len data = Ok (length (make_iterable axis))
       /\ Forall2 (fun d a => check_pytree_axis d a = Ok tt)
                  (data_iterable data) (make_iterable axis)).
Proof.
  destruct axis; try discriminate; intros _ Hleaf.
  - simpl in Hleaf. apply negb_false_iff in Hleaf.
    rewrite (check_list_as_tuple _ _ Hleaf). apply check_tuple_iff.
  - apply check_tuple_iff.
  - rewrite check_dict_as_tuple. apply check_tuple_iff.
Qed.

Lemma check_pytree_axis_container_witness :
  check_pytree_axis ex_args ex_spec = Ok tt
  <-> py_len ex_args = Ok (length (make_iterable ex_spec))
      /\ Forall2 (fun d a => check_pytree_axis d a = Ok tt)
                 (data_iterable ex_args) (make_iterable ex_spec).
Proof.
  apply (check_pytree_axis_container ex_args ex_spec); reflexivity.
Defined.

(** Entries face specifications by position, never by key: a dictionary of
    specifications checks like the tuple of its values, and against a
    container of specifications a dictionary of values checks like the
    tuple of its values. *)
Theorem check_pytree_axis_by_position
        (data : pydata) (kvs : list (string * pytree))
        (dkvs : list (string * pydata)) (axis : pytree) :
  check_pytree_axis data (PDict kvs) = check_pytree_axis data (PTuple (map snd kvs))
  /\ (is_container axis = true ->
      check_pytree_axis (DDict dkvs) axis
      = check_pytree_axis (DTuple (map snd dkvs)) axis).
Proof.
  split; [apply check_dict_as_tuple|].
  destruct axis; try discriminate; intros _; simpl; rewrite length_map; reflexivity.
Qed.

Lemma check_pytree_axis_by_position_witness :
  check_pytree_axis (DDict [("b", DArray float32 [2]); ("a", DInt 1)])
                    (PDict [("a", PList [PStr "n"]); ("b", PType T_int)])
  = Ok tt.
Proof.
  rewrite (proj2 (check_pytree_axis_by_position
                    DNone [] [("b", DArray float32 [2]); ("a", DInt 1)]
                    (PDict [("a", PList [PStr "n"]); ("b", PType T_int)])) eq_refl).
  reflexivity.
Defined.

(** The number of entries is compared before any entry is looked at: a value
    with another number of entries than the container of specifications
    fails the count assertion whatever its entries, and a value without a
    length fails with the error of [len]. *)
Theorem check_pytree_axis_count (data : pydata) (axis : pytree) :
  is_container axis = true ->
  is_pytree_leaf axis = false ->
  (forall n, py_len data = Ok n -> n <> length (make_iterable axis) ->
             check_pytree_axis data axis = Raise (AssertionError ElementsMismatch))
  /\ (forall e, py_len data = Raise e -> check_pytree_axis data axis = Raise e).
Proof.
  intros Hc Hleaf.
  assert (check_pytree_axis data axis
          = check_pytree_axis data (PTuple (make_iterable axis))) as ->.
  { destruct axis; try discriminate.
    - simpl in Hleaf. apply negb_false_iff in Hleaf.
      now apply check_list_as_tuple.
    - reflexivity.
    - apply check_dict_as_tuple. }
  split.
  - intros n Hn Hne. simpl. rewrite Hn. simpl.
    apply Nat.eqb_neq in Hne. rewrite Nat.eqb_sym in Hne. now rewrite Hne.
  - intros e He. simpl. now rewrite He.
Qed.

Lemma check_pytree_axis_count_witness :
  check_pytree_axis (DTuple [DInt 1]) ex_spec = Raise (AssertionError ElementsMismatch)
  /\ check_pytree_axis (DInt 1) ex_spec = Raise TypeError.
Proof.
  destruct (check_pytree_axis_count (DTuple [DInt 1]) ex_spec eq_refl eq_refl)
    as [Hcount _].
  destruct (check_pytree_axis_count (DInt 1) ex_spec eq_refl eq_refl)
    as [_ Hlen].
  split.
  - apply (Hcount 1); [reflexivity | vm_compute; lia].
  - apply Hlen. reflexivity.
Defined.

(** ** Validation of rank descriptors *)

(** A rank descriptor is read for its length only: two leaves with as many
    tags accept the same values, whatever the tags are, type descriptors
    among them. *)
Theorem check_pytree_axis_rank_length (data : pydata) (leaf leaf' : list pytree) :
  existsb is_container leaf = false ->
  existsb is_container leaf' = false ->
  length leaf = length leaf' ->
  check_pytree_axis data (PList leaf) = check_pytree_axis data (PList leaf').
Proof.
  intros H H' Hlen. simpl. now rewrite H, H', Hlen.
Qed.

Lemma check_pytree_axis_rank_length_witness :
  check_pytree_axis (DArray float32 [4; 5]) (PList [PType T_int; PType T_str])
  = check_pytree_axis (DArray float32 [4; 5]) (PList [PStr "row"; PEllipsis]).
Proof.
  apply (check_pytree_axis_rank_length (DArray float32 [4; 5])
           [PType T_int; PType T_str] [PStr "row"; PEllipsis]); reflexivity.
Defined.

Lemma filter_length_split {A : Type} (p : A -> bool) (l : list A) :
  length (filter (fun a => negb (p a)) l) + length (filter p l) = length l.
Proof.
  induction l as [|x l IH]; simpl; [reflexivity|].
  destruct (p x); simpl; lia.
Qed.

(** Taking a label out of a rank descriptor shortens it by the number of
    times the label stands in it: the filtered descriptor accepts the arrays
    with that many dimensions less, so that a label written twice in one
    leaf costs two dimensions. *)
Theorem check_pytree_axis_filtered_rank
        (d : dtype) (shape : list nat) (L : pytree) (leaf : list pytree) :
  existsb is_container leaf = false ->
  (check_pytree_axis (DArray d shape)
                     (filter_pytree (fun a => py_ne a L) (PList leaf)) = Ok tt
   <-> length shape + length (filter (fun a => py_eq a L) leaf) = length leaf).
Proof.
  intros Hc. rewrite filter_pytree_leaf by exact Hc.
  simpl. rewrite (existsb_filter_false _ _ _ Hc). simpl.
  pose proof (filter_length_split (fun a => py_eq a L) leaf) as Hsplit.
  unfold py_ne.
  destruct (Nat.eqb _ (length shape)) eqn:E; simpl.
  - apply Nat.eqb_eq in E. split; [intros _; lia | reflexivity].
  - apply Nat.eqb_neq in E. split; [discriminate | intros H; lia].
Qed.

Lemma check_pytree_axis_filtered_rank_witness :
  (check_pytree_axis (DArray float32 [3])
                     (filter_pytree (fun a => py_ne a (PStr "a"))
                                    (PList [PStr "a"; PType T_float])) = Ok tt
   <-> 1 + 1 = 2)
  /\ (check_pytree_axis (DArray float32 [3])
                        (filter_pytree (fun a => py_ne a (PStr "a"))
                                       (PList [PStr "a"; PStr "a"])) = Ok tt
      <-> 1 + 2 = 2).
Proof.
  split.
  - apply (check_pytree_axis_filtered_rank float32 [3] (PStr "a")
             [PStr "a"; PType T_float]).
    reflexivity.
  - apply (check_pytree_axis_filtered_rank float32 [3] (PStr "a")
             [PStr "a"; PStr "a"]).
    reflexivity.
Defined.

(** The entries are checked in order and the first failure is the one
    reported: when the entries before a rank pass and the entry of that rank
    fails, the check of the tuple fails with the error of that entry. *)
Theorem check_pytree_axis_first_failure
        (data : pydata) (l : list pytree) (i : nat)
        (di : pydata) (ai : pytree) (e : exception) :
  py_len data = Ok (length l) ->
  nth_error (data_iterable data) i = Some di ->
  nth_error l i = Some ai ->
  check_pytree_axis di ai = Raise e ->
  (forall j dj aj, j < i ->
                   nth_error (data_iterable data) j = Some dj ->
                   nth_error l j = Some aj ->
                   check_pytree_axis dj aj = Ok tt) ->
  check_pytree_axis data (PTuple l) = Raise e.
Proof.
  intros Hlen Hdi Hai He Hbefore. simpl. rewrite Hlen. simpl.
  rewrite Nat.eqb_refl. simpl. clear Hlen.
  revert i l Hdi Hai Hbefore.
  generalize (data_iterable data) as ds.
  induction ds as [|d ds IH]; intros [|i] l Hdi Hai Hbefore;
    try discriminate; destruct l as [|a l]; try discriminate; simpl in *.
  - injection Hdi as ->. injection Hai as ->. now rewrite He.
  - rewrite (Hbefore 0 d a (Nat.lt_0_succ i) eq_refl eq_refl). simpl.
    apply (IH i l Hdi Hai).
    intros j dj aj Hj. apply (Hbefore (S j)). lia.
Qed.

Lemma check_pytree_axis_first_failure_witness :
  check_pytree_axis (DTuple [DInt 1; DFloat; DStr "s"])
                    (PTuple [PType T_int; PType T_int; PList []])
  = Raise (AssertionError TypeMismatch).
Proof.
  apply (check_pytree_axis_first_failure
           (DTuple [DInt 1; DFloat; DStr "s"])
           [PType T_int; PType T_int; PList []] 1 DFloat (PType T_int)).
  - reflexivity.
  - reflexivity.
  - reflexivity.
  - reflexivity.
  - intros [|j] dj aj Hj Hd Ha; [|lia].
    injection Hd as <-. injection Ha as <-. reflexivity.
Defined.

(** ** The checking wrapper at a call *)

(** The wrapper returns a value exactly when the arguments pass against
    [in_axes], the function returns that value, and the value passes against
    [out_axes]: the output is handed on as it is. *)
Theorem wrapped_func_returns
        {S : Type} (func : list pydata -> S -> result pydata * S)
        (in_axes out_axes : pytree) (args : list pydata) (s s' : S) (output : pydata) :
  wrapped_func func in_axes out_axes args s = (Ok output, s')
  <-> check_pytree_axis (DTuple args) in_axes = Ok tt
      /\ func args s = (Ok output, s')
      /\ check_pytree_axis output out_axes = Ok tt.
Proof.
  unfold wrapped_func.
  destruct (check_pytree_axis (DTuple args) in_axes) as [[]|e].
  - destruct (func args s) as [[out|e] s1].
    + destruct (check_pytree_axis out out_axes) as [[]|e] eqn:E.
      * split.
        -- intros H. injection H as -> ->. auto.
        -- intros (_ & H & _). injection H as -> ->. reflexivity.
      * split; [discriminate|].
        intros (_ & H & H'). injection H as -> ->. congruence.
    + split; [discriminate | intros (_ & H & _); discriminate].
  - split; [discriminate | intros (H & _); discriminate].
Qed.

Lemma wrapped_func_returns_witness :
  wrapped_func ex_double (PDict [("x", PList [PStr "row"])]) (PList [PStr "row"])
               [DArray float32 [3]] 0
  = (Ok (DArray float32 [3]), 1).
Proof.
  apply (proj2 (wrapped_func_returns ex_double (PDict [("x", PList [PStr "row"])])
                  (PList [PStr "row"]) [DArray float32 [3]] 0 1 (DArray float32 [3]))).
  repeat split.
Defined.

(** The effects of the function: arguments that fail the check leave the
    state as it was, whatever the function, which is not called; arguments
    that pass leave the state the function leaves, also when the function
    raises or its output fails the check afterwards. *)
Theorem wrapped_func_state
        {S : Type} (func : list pydata -> S -> result pydata * S)
        (in_axes out_axes : pytree) (args : list pydata) (s : S) :
  (forall e, check_pytree_axis (DTuple args) in_axes = Raise e ->
             wrapped_func func in_axes out_axes args s = (Raise e, s))
  /\ (check_pytree_axis (DTuple args) in_axes = Ok tt ->
      snd (wrapped_func func in_axes out_axes args s) = snd (func args s)
      /\ (forall output e,
             fst (func args s) = Ok output ->
             check_pytree_axis output out_axes = Raise e ->
             wrapped_func func in_axes out_axes args s = (Raise e, snd (func args s)))).
Proof.
  unfold wrapped_func. split.
  - intros e ->. reflexivity.
  - intros ->. destruct (func args s) as [[out|e] s1]; simpl.
    + split.
      * now destruct (check_pytree_axis out out_axes).
      * intros output e H He. injection H as ->. now rewrite He.
    + split; [reflexivity | discriminate].
Qed.

Lemma wrapped_func_state_witness :
  wrapped_func ex_double (PDict [("x", PList [PStr "row"])]) (PList [PStr "row"])
               [DFloat] 0
  = (Raise AttributeError, 0)
  /\ wrapped_func ex_double (PDict [("x", PList [PStr "row"])]) (PList [])
                  [DArray float32 [3]] 0
     = (Raise (AssertionError ShapeMismatch), 1).
Proof.
  split.
  - apply (proj1 (wrapped_func_state ex_double (PDict [("x", PList [PStr "row"])])
                    (PList [PStr "row"]) [DFloat] 0)).
    reflexivity.
  - destruct (proj2 (wrapped_func_state ex_double (PDict [("x", PList [PStr "row"])])
                       (PList []) [DArray float32 [3]] 0) eq_refl) as [_ H].
    apply (H (DArray float32 [3])); reflexivity.
Defined.

(** The wrapper of a dictionary of [n] input specifications takes [n]
    positional arguments: with another number of them it fails the count
    assertion, and the function is not called. *)
Theorem wrapped_func_arity
        {S : Type} (func : list pydata -> S -> result pydata * S)
        (kvs : list (string * pytree)) (out_axes : pytree)
        (args : list pydata) (s : S) :
  length args <> length kvs ->
  wrapped_func func (PDict kvs) out_axes args s
  = (Raise (AssertionError ElementsMismatch), s).
Proof.
  intros H. unfold wrapped_func.
  rewrite check_dict_as_tuple. simpl. rewrite length_map.
  apply Nat.eqb_neq in H. rewrite Nat.eqb_sym in H. now rewrite H.
Qed.

Lemma wrapped_func_arity_witness :
  wrapped_func ex_double (PDict [("x", PList [PStr "row"])]) (PList [PStr "row"])
               [DArray float32 [3]; DInt 1] 0
  = (Raise (AssertionError ElementsMismatch), 0).
Proof.
  apply (wrapped_func_arity ex_double [("x", PList [PStr "row"])]).
  vm_compute. lia.
Defined.

(** ** What [xmap] accepts *)

Lemma eliminate_ok_used (f : callable) (order : list pytree) :
  forall in_axes out_axes c,
    eliminate f in_axes out_axes order = Ok c ->
    forall a, In a (named_axes in_axes) -> In a order.
Proof.
  intros in_axes out_axes c Hok a Ha.
  destruct (existsb (py_eq a) order) eqn:E.
  - apply existsb_exists in E as (x & Hx & Heq).
    apply py_eq_true in Heq. now subst x.
  - assert (~ In a order) as Hno.
    { intros Hin.
      assert (existsb (py_eq a) order = true) as H; [|congruence].
      apply existsb_exists. exists a. split; [exact Hin|].
      apply py_eq_refl.
      pose proof (named_axes_str in_axes) as Hs.
      rewrite Forall_forall in Hs. now apply Hs. }
    destruct (eliminate_unused f order in_axes out_axes a Ha Hno) as (b & _ & _ & Hr).
    congruence.
Qed.







(** ** The specifications next to the function *)

Lemma tags_filter_all (order : list pytree) :
  forall t,
    tags (fold_left (fun t L => filter_pytree (fun a => py_ne a L) t) order t)
    = filter (fun a => forallb (fun L => py_ne a L) order) (tags t).
Proof.
  induction order as [|L rest IH]; intros t; simpl.
  - symmetry. now apply filter_all_true.
  - rewrite IH, tags_filter_pytree. apply filter_filter_andb.
Qed.

Lemma innermost_check_nest (name : string) (order : list pytree) :
  forall in_axes out_axes,
    innermost_check (nest (Func name) in_axes out_axes order)
    = Some (fold_left (fun t L => filter_pytree (fun a => py_ne a L) t) order in_axes,
            fold_left (fun t L => filter_pytree (fun a => py_ne a L) t) order out_axes).
Proof.
  induction order as [|L rest IH]; intros in_axes out_axes; simpl; [reflexivity|].
  now rewrite IH.
Qed.

Lemma forallb_py_ne_labels (order : list pytree) (a : pytree) :
  Forall (fun L => is_str L = true) order ->
  (is_str a = true -> In a order) ->
  forallb (fun L => py_ne a L) order = negb (is_str a).
Proof.
  intros Hs Hin. destruct (is_str a) eqn:Ea; simpl.
  - specialize (Hin eq_refl). apply not_true_iff_false. intros H.
    rewrite forallb_forall in H. specialize (H a Hin).
    unfold py_ne in H. rewrite py_eq_refl in H; [discriminate|].
    now apply is_str_not_container.
  - apply forallb_forall. intros L HL. apply py_ne_true. intros ->.
    rewrite Forall_forall in Hs. specialize (Hs _ HL). congruence.
Qed.

(** The function of the user is checked against specifications without any
    named axis: in the callable that [recursive_xmap] returns for a
    function, the innermost wrapper holds the two specifications with all
    their tags that are strings taken out, and all their other tags kept in
    order. *)
Theorem recursive_xmap_innermost_check
        (depth : nat) (name : string) (in_axes out_axes : pytree) (c : callable) :
  recursive_xmap depth (Func name) in_axes out_axes = Some (Ok c) ->
  exists in_axes' out_axes',
    innermost_check c = Some (in_axes', out_axes')
    /\ tags in_axes' = filter (fun a => negb (is_str a)) (tags in_axes)
    /\ tags out_axes' = filter (fun a => negb (is_str a)) (tags out_axes)
    /\ named_axes in_axes' = [] /\ named_axes out_axes' = [].
Proof.
  rewrite recursive_xmap_unroll.
  destruct (Nat.ltb _ depth); [|discriminate].
  intros H. injection H as H.
  pose proof (eliminate_ok_used _ _ _ _ _ H) as Hused.
  apply eliminate_nest in H. subst c.
  rewrite innermost_check_nest. do 2 eexists. split; [reflexivity|].
  assert (Hlabels : Forall (fun L => is_str L = true) (elimination_order out_axes)).
  { apply Forall_forall. intros L HL. unfold elimination_order in HL.
    rewrite In_distinct in HL. unfold named_axes in HL.
    now apply filter_In in HL. }
  assert (Hin : tags (fold_left (fun t L => filter_pytree (fun a => py_ne a L) t)
                                (elimination_order out_axes) in_axes)
                = filter (fun a => negb (is_str a)) (tags in_axes)).
  { rewrite tags_filter_all. apply filter_ext_in. intros a Ha.
    apply forallb_py_ne_labels; [exact Hlabels|].
    intros Hs. apply Hused. unfold named_axes. apply filter_In. now split. }
  assert (Hout : tags (fold_left (fun t L => filter_pytree (fun a => py_ne a L) t)
                                 (elimination_order out_axes) out_axes)
                 = filter (fun a => negb (is_str a)) (tags out_axes)).
  { rewrite tags_filter_all. apply filter_ext_in. intros a Ha.
    apply forallb_py_ne_labels; [exact Hlabels|].
    intros Hs. unfold elimination_order. rewrite In_distinct.
    unfold named_axes. apply filter_In. now split. }
  split; [exact Hin|]. split; [exact Hout|].
  unfold named_axes. rewrite Hin, Hout.
  assert (Hempty : forall l : list pytree,
             filter is_str (filter (fun a => negb (is_str a)) l) = []).
  { intros l. rewrite filter_filter_andb.
    induction l as [|x l IH]; simpl; [reflexivity|].
    now destruct (is_str x). }
  now rewrite !Hempty.
Qed.

Lemma recursive_xmap_innermost_check_witness :
  exists in_axes' out_axes',
    innermost_check (nest (Func "f")
                          (PDict [("x", PList [PStr "row"; PType T_float]);
                                  ("y", PList [PType T_int])])
                          (PList [PStr "row"; PType T_float])
                          [PStr "row"])
    = Some (in_axes', out_axes')
    /\ tags in_axes'
       = filter (fun a => negb (is_str a))
                (tags (PDict [("x", PList [PStr "row"; PType T_float]);
                              ("y", PList [PType T_int])]))
    /\ tags out_axes'
       = filter (fun a => negb (is_str a)) (tags (PList [PStr "row"; PType T_float]))
    /\ named_axes in_axes' = [] /\ named_axes out_axes' = [].
Proof.
  apply (recursive_xmap_innermost_check 2 "f"
           (PDict [("x", PList [PStr "row"; PType T_float]); ("y", PList [PType T_int])])
           (PList [PStr "row"; PType T_float])).
  reflexivity.
Defined.
